(** * Marketing segmentation dashboard ([codigo_corregido.py])

    A shallow embedding of the data-preparation, filtering and aggregation
    code of the dashboard script, together with the parts of numpy and pandas
    the script calls, and the properties of the specification stated over it.

    Conventions.
    - A data frame is the list of its rows, in index order; a column is the
      projection of a field over that list.
    - A missing value (NaN / None / pd.NA) is [None].
    - Integers are [Z]; an int64 result is wrapped ([wrap64]) and a
      float64 that holds an integer is that integer, rounded to 53 bits
      ([round53]).  A float produced by a mean or a division is an exact
      rational ([Q]), with [None] for NaN; its rounding is not modelled.
    - Python exceptions are the constructors of [exn]; a computation that can
      raise returns a [result]. *)

From Stdlib Require Import ZArith List Bool String Ascii Lia QArith.
From Stdlib Require Import DecimalString Sorting.Sorted Permutation.
Import ListNotations.
Open Scope string_scope.
Open Scope Z_scope.

Set Implicit Arguments.

(* ------------------------------------------------------------------------- *)
(** * numpy's legacy global generator: [np.random.seed], [np.random.choice] *)
(* ------------------------------------------------------------------------- *)

Module NumpyRandom.

(** 32-bit unsigned wrap-around. *)
Definition u32 (x : Z) : Z := Z.land x 0xffffffff.

Definition RK_STATE_LEN : nat := 624.
Definition N : nat := 624.
Definition M : nat := 397.
Definition MATRIX_A : Z := 0x9908b0df.
Definition UPPER_MASK : Z := 0x80000000.
Definition LOWER_MASK : Z := 0x7fffffff.

(** [mt19937_state]: the key array and the read position. *)
Record mt19937_state : Type := MkState { key : list Z; pos : nat }.

(** [state->key[i] = v]. *)
Fixpoint upd (i : nat) (v : Z) (k : list Z) : list Z :=
  match k, i with
  | [], _ => []
  | _ :: t, O => v :: t
  | h :: t, S j => h :: upd j v t
  end.

Definition get (k : list Z) (i : nat) : Z := nth i k 0.

(** The body of the loop of [mt19937_seed]:
    [key[pos] = seed; seed = (1812433253 * (seed ^ (seed >> 30)) + pos + 1) & 0xffffffff]. *)
Fixpoint seed_fill (n : nat) (p : Z) (seed : Z) : list Z :=
  match n with
  | O => []
  | S n' =>
      seed :: seed_fill n' (p + 1)
                (u32 (1812433253 * Z.lxor seed (Z.shiftr seed 30) + p + 1))
  end.

Definition mt19937_seed (seed : Z) : mt19937_state :=
  {| key := seed_fill RK_STATE_LEN 0 (u32 seed); pos := RK_STATE_LEN |}.

(** [y = (a & UPPER_MASK) | (b & LOWER_MASK); (y >> 1) ^ (-(y & 1) & MATRIX_A)]. *)
Definition twist (a b : Z) : Z :=
  let y := Z.lor (Z.land a UPPER_MASK) (Z.land b LOWER_MASK) in
  Z.lxor (Z.shiftr y 1) (if Z.testbit y 0 then MATRIX_A else 0).

(** First loop of [mt19937_gen], [for (i = 0; i < N - M; i++)]. *)
Fixpoint gen_low (n i : nat) (k : list Z) : list Z :=
  match n with
  | O => k
  | S n' =>
      gen_low n' (S i)
        (upd i (Z.lxor (get k (i + M)) (twist (get k i) (get k (S i)))) k)
  end.

(** Second loop, [for (; i < N - 1; i++)], reading [key[i + (M - N)]]. *)
Fixpoint gen_high (n i : nat) (k : list Z) : list Z :=
  match n with
  | O => k
  | S n' =>
      gen_high n' (S i)
        (upd i (Z.lxor (get k (i - (N - M))) (twist (get k i) (get k (S i)))) k)
  end.

Definition mt19937_gen (s : mt19937_state) : mt19937_state :=
  let k1 := gen_low (N - M) 0 (key s) in
  let k2 := gen_high (M - 1) (N - M) k1 in
  let k3 := upd (N - 1)
              (Z.lxor (get k2 (M - 1)) (twist (get k2 (N - 1)) (get k2 0))) k2 in
  {| key := k3; pos := 0 |}.

(** Tempering of [mt19937_next]. *)
Definition temper (y0 : Z) : Z :=
  let y1 := Z.lxor y0 (Z.shiftr y0 11) in
  let y2 := Z.lxor y1 (Z.land (u32 (Z.shiftl y1 7)) 0x9d2c5680) in
  let y3 := Z.lxor y2 (Z.land (u32 (Z.shiftl y2 15)) 0xefc60000) in
  Z.lxor y3 (Z.shiftr y3 18).

Definition mt19937_next (s : mt19937_state) : Z * mt19937_state :=
  let s1 := if Nat.eqb (pos s) RK_STATE_LEN then mt19937_gen s else s in
  (temper (get (key s1) (pos s1)), {| key := key s1; pos := S (pos s1) |}).

(** [gen_mask]: the smallest bit mask covering [rng] (a 32-bit value). *)
Definition gen_mask (rng : Z) : Z :=
  let m1 := Z.lor rng (Z.shiftr rng 1) in
  let m2 := Z.lor m1 (Z.shiftr m1 2) in
  let m3 := Z.lor m2 (Z.shiftr m2 4) in
  let m4 := Z.lor m3 (Z.shiftr m3 8) in
  Z.lor m4 (Z.shiftr m4 16).

(** [while ((val = (next_uint32(state) & mask)) > rng);]
    The number of retries is bounded by [fuel]; when [mask = rng], as for a
    population whose size is a power of two, the first value is accepted
    (lemma [bounded_no_retry]). *)
Fixpoint buffered_bounded_masked_uint32
         (fuel : nat) (rng mask : Z) (s : mt19937_state) : Z * mt19937_state :=
  let '(v, s') := mt19937_next s in
  let val := Z.land v mask in
  match fuel with
  | O => (val, s')
  | S f =>
      if val >? rng then buffered_bounded_masked_uint32 f rng mask s'
      else (val, s')
  end.

Definition retry_bound : nat := 64.

(** [random_bounded_uint64_fill(state, off = 0, rng, cnt, use_masked = true, out)]. *)
Fixpoint random_bounded_fill (rng : Z) (cnt : nat) (s : mt19937_state)
  : list Z * mt19937_state :=
  match cnt with
  | O => ([], s)
  | S c =>
      if rng =? 0 then
        let '(out, s') := random_bounded_fill rng c s in (0 :: out, s')
      else
        let '(v, s1) := buffered_bounded_masked_uint32 retry_bound rng (gen_mask rng) s in
        let '(out, s2) := random_bounded_fill rng c s1 in
        (v :: out, s2)
  end.

(** The global generator is one [mt19937_state]; [np.random.seed(n)]
    overwrites it. *)
Definition seed (n : Z) (_ : mt19937_state) : mt19937_state := mt19937_seed n.

(** [np.random.choice(a, size=size)] for a non-empty list [a], with
    replacement and uniform weights: [idx = randint(0, len(a), size)], then
    [a[idx]]. *)
Definition choice (a : list string) (size : nat) (s : mt19937_state)
  : list string * mt19937_state :=
  let '(idx, s') := random_bounded_fill (Z.of_nat (List.length a) - 1) size s in
  (map (fun i => nth (Z.to_nat i) a "") idx, s').

(** The output of the [n]-th call of [mt19937_next] after the first. *)
Fixpoint nth_output (n : nat) (s : mt19937_state) : Z :=
  match n with
  | O => fst (mt19937_next s)
  | S n' => nth_output n' (snd (mt19937_next s))
  end.

End NumpyRandom.

(* ------------------------------------------------------------------------- *)
(** * Python values and exceptions *)
(* ------------------------------------------------------------------------- *)

Inductive exn : Type :=
| FileNotFoundError
| EmptyDataError
| ParserError
| TypeError
| ZeroDivisionError
| KeyError
| ValueError.

Inductive result (A : Type) : Type :=
| Ok (a : A)
| Raise (e : exn).
Arguments Ok {A} a.
Arguments Raise {A} e.

(** [str(i)] for an integer, as an f-string formats it. *)
Definition str (i : Z) : string := NilZero.string_of_int (Z.to_int i).

(** [range(start, stop, step)] for a positive step. *)
Definition range (start stop step : Z) : list Z :=
  map (fun i => start + step * Z.of_nat i)
      (seq 0 (Z.to_nat ((stop - start + step - 1) / step))).

(** [a / b] on integers: a float, or [ZeroDivisionError]. *)
Definition truediv (a b : Z) : result Q :=
  if b =? 0 then Raise ZeroDivisionError else Ok (Qmake a (Z.to_pos b)).

(** [int(x)] on a float: truncation towards zero, [ValueError] on NaN. *)
Definition py_int (x : option Q) : result Z :=
  match x with
  | Some q => Ok (Z.quot (Qnum q) (Zpos (Qden q)))
  | None => Raise ValueError
  end.

(** [d.get(k)] on a dict given as its item list. *)
Fixpoint dict_get (d : list (string * string)) (k : string) : option string :=
  match d with
  | [] => None
  | (k', v) :: t => if String.eqb k k' then Some v else dict_get t k
  end.

(* ------------------------------------------------------------------------- *)
(** * The pandas operations the script uses *)
(* ------------------------------------------------------------------------- *)

Module Pandas.

Section Generic.
Variable A : Type.

(** [s.dropna()]. *)
Fixpoint dropna (s : list (option A)) : list A :=
  match s with
  | [] => []
  | Some v :: t => v :: dropna t
  | None :: t => dropna t
  end.

(** [df[mask]]: the rows whose mask entry is [True], in index order. *)
Fixpoint loc (df : list A) (mask : list bool) : list A :=
  match df, mask with
  | r :: df', b :: mask' => if b then r :: loc df' mask' else loc df' mask'
  | _, _ => []
  end.

(** [df.empty]. *)
Definition empty (df : list A) : bool :=
  match df with [] => true | _ => false end.
End Generic.

(** [m1 & m2] on boolean series. *)
Fixpoint mask_and (m1 m2 : list bool) : list bool :=
  match m1, m2 with
  | a :: t1, b :: t2 => (a && b) :: mask_and t1 t2
  | _, _ => []
  end.

Definition mem (v : string) (values : list string) : bool :=
  existsb (String.eqb v) values.

(** One entry of [s.isin(values)], for [values] without missing entries:
    a missing value is in no list of labels. *)
Definition isin1 (values : list string) (v : option string) : bool :=
  match v with
  | Some x => mem x values
  | None => false
  end.

(** [s.isin(values)]. *)
Definition isin (s : list (option string)) (values : list string) : list bool :=
  map (isin1 values) s.

(** [s.unique()]: the distinct values in order of first appearance. *)
Fixpoint unique_acc (seen : list string) (s : list string) : list string :=
  match s with
  | [] => []
  | v :: t => if mem v seen then unique_acc seen t
              else v :: unique_acc (v :: seen) t
  end.
Definition unique (s : list string) : list string := unique_acc [] s.

(** [s.map(d)] for a dict [d]: a value that is missing or not a key
    becomes missing. *)
Definition map_dict (d : list (string * string)) (s : list (option string))
  : list (option string) :=
  map (fun v => match v with Some k => dict_get d k | None => None end) s.

(** [x.fillna(0)] on one cell. *)
Definition fillna0 (x : option Z) : Z :=
  match x with Some v => v | None => 0 end.

Definition sum (l : list Z) : Z := fold_right Z.add 0 l.

(** The value an int64 operation leaves: the result modulo 2^64, read as
    a signed 64-bit integer. *)
Definition wrap64 (z : Z) : Z := (z + 2 ^ 63) mod 2 ^ 64 - 2 ^ 63.

(** The float64 nearest to the integer [z] (ties to the even significand),
    itself an integer: the 53 leading bits are kept. *)
Definition round53 (z : Z) : Z :=
  let a := Z.abs z in
  let e := Z.log2 a in
  if e <? 53 then z
  else
    let sh := e - 52 in
    let q := Z.shiftr a sh in
    let rem := a - Z.shiftl q sh in
    let half := Z.shiftl 1 (sh - 1) in
    let q' := if (half <? rem) || ((rem =? half) && Z.odd q) then q + 1 else q in
    Z.sgn z * Z.shiftl q' sh.

(** float64 addition of two floats that hold integers. *)
Definition fadd (a b : Z) : Z := round53 (a + b).

(** One row of [x.fillna(0).sum(axis=1)] over integer columns.  When every
    column is int64 the sum is an int64 sum; when a column has an empty
    cell it is a float64 column, the row is summed as float64 values, left
    to right. *)
Definition sum_axis1 (float : bool) (cells : list (option Z)) : Z :=
  if float
  then fold_left fadd (map (fun c => round53 (fillna0 c)) cells) 0
  else wrap64 (sum (map fillna0 cells)).

(** [s.mean()]: NaN on an empty series. *)
Definition mean (s : list Z) : option Q :=
  match s with
  | [] => None
  | _ => Some (Qmake (sum s) (Pos.of_nat (List.length s)))
  end.

(** [bins.searchsorted(x, side="right")] on increasing [bins]: the first
    position whose bin edge exceeds [x]. *)
Fixpoint searchsorted_right (bins : list Z) (x : Z) : nat :=
  match bins with
  | [] => O
  | b :: t => if b <=? x then S (searchsorted_right t x) else O
  end.

(** One entry of [pd.cut(s, bins=bins, labels=labels, right=False)]:
    [ids = bins.searchsorted(x, side="right")], missing when
    [ids == len(bins)] or [ids == 0], otherwise [labels[ids - 1]]. *)
Definition cut1 (bins : list Z) (labels : list string) (x : Z) : option string :=
  let ids := searchsorted_right bins x in
  if Nat.eqb ids (List.length bins) || Nat.eqb ids 0 then None
  else nth_error labels (ids - 1).

Definition count (v : string) (s : list string) : nat :=
  List.length (filter (String.eqb v) s).

(** [np.sort] on strings (insertion into an ascending list).  Strings are
    compared byte by byte, which on UTF-8 text is Python's code point
    order. *)
Fixpoint insert_sorted (v : string) (l : list string) : list string :=
  match l with
  | [] => [v]
  | h :: t => if String.leb v h then v :: l else h :: insert_sorted v t
  end.
Definition np_sort (l : list string) : list string :=
  fold_right insert_sorted [] l.

(** [s.mode()]: the most frequent non-missing values, sorted ascending. *)
Definition mode (s : list (option string)) : list string :=
  let vals := dropna s in
  let keys := unique vals in
  let max_count := fold_right Nat.max O (map (fun k => count k vals) keys) in
  np_sort (filter (fun k => Nat.eqb (count k vals) max_count) keys).

(** [s[0]] on the result of [mode()]. *)
Definition at0 (s : list string) : result string :=
  match s with
  | v :: _ => Ok v
  | [] => Raise KeyError
  end.

Fixpoint insert_Z (v : Z) (l : list Z) : list Z :=
  match l with
  | [] => [v]
  | h :: t => if v <=? h then v :: l else h :: insert_Z v t
  end.
Definition sort_Z (l : list Z) : list Z := fold_right insert_Z [] l.

(** [s.median()]. *)
Definition median (s : list Z) : option Q :=
  let l := sort_Z s in
  let n := List.length l in
  match n with
  | O => None
  | _ =>
      let lo := nth (Nat.div n 2 - 1) l 0 in
      let hi := nth (Nat.div n 2) l 0 in
      if Nat.even n then Some (Qmake (lo + hi) 2) else Some (Qmake hi 1)
  end.

(** [s.value_counts()]: counts of the non-missing values, most frequent
    first, ties in order of first appearance. *)
Fixpoint insert_count (e : string * nat) (l : list (string * nat))
  : list (string * nat) :=
  match l with
  | [] => [e]
  | h :: t => if Nat.ltb (snd e) (snd h) then h :: insert_count e t else e :: l
  end.
Definition value_counts (s : list (option string)) : list (string * nat) :=
  let vals := dropna s in
  fold_right insert_count [] (map (fun k => (k, count k vals)) (unique vals)).

(** [s.idxmax()]: the first position of the largest non-NaN entry. *)
Fixpoint idxmax_from (i : nat) (best : option (nat * Q)) (s : list (option Q))
  : option (nat * Q) :=
  match s with
  | [] => best
  | None :: t => idxmax_from (S i) best t
  | Some q :: t =>
      match best with
      | None => idxmax_from (S i) (Some (i, q)) t
      | Some (_, b) =>
          if Qlt_le_dec b q then idxmax_from (S i) (Some (i, q)) t
          else idxmax_from (S i) best t
      end
  end.
Definition idxmax (s : list (option Q)) : result nat :=
  match idxmax_from O None s with
  | Some (i, _) => Ok i
  | None => Raise ValueError
  end.

Section GroupBy.
Variable Row : Type.
Variable by_col : Row -> option string.
Variable val : Row -> Z.

Definition group (df : list Row) (c : string) : list Row :=
  filter (fun r => isin1 [c] (by_col r)) df.

(** [df.groupby(by_col, observed=observed)[val].mean().reset_index()] for a
    categorical column [by_col] with the ordered [categories]: one row per
    category in category order (rows with a missing key belong to no
    group).  With [observed=False] every category has a row, its mean NaN
    when the group is empty; with [observed=True] only the categories
    that occur have one. *)
Definition groupby_mean (observed : bool) (categories : list string)
           (df : list Row) : list (string * option Q) :=
  let cats :=
    if observed
    then filter (fun c => negb (empty (group df c))) categories
    else categories in
  map (fun c => (c, mean (map val (group df c)))) cats.
End GroupBy.

End Pandas.

(* ------------------------------------------------------------------------- *)
(** * The input file *)
(* ------------------------------------------------------------------------- *)

(** One row of the frame [read_csv] returns for a file whose header has the
    required columns and whose numeric columns hold numbers.  [Year_Birth]
    is an int64 in every row; a spend cell is an integer (an int64 when its
    column has no empty cell, a float64 holding an integer otherwise) or
    empty; [Gender] is the cell of the optional [Gender] column (meaningful
    when the table has it). *)
Record RawRow : Type := MkRaw {
  Year_Birth : Z;
  Marital_Status : option string;
  Gender : option string;
  MntWines : option Z;
  MntFruits : option Z;
  MntMeatProducts : option Z;
  MntFishProducts : option Z;
  MntSweetProducts : option Z;
  MntGoldProds : option Z
}.

(** A file with a header line: whether the header has a [Gender] column,
    and the data rows in file order. *)
Record CsvTable : Type := MkTable {
  has_Gender : bool;
  csv_rows : list RawRow
}.

(** Why a file that parses is not such a table: the loader then raises
    after [read_csv] has returned. *)
Inductive defect : Type :=
| MissingColumn  (* no [Year_Birth] or no [Mnt...] column: [KeyError], line 33 or 38 *)
| TextInYear     (* text in [Year_Birth]: [TypeError], line 33 *)
| TextInSpend.   (* text in a spend cell beside a number or an empty cell:
                    [TypeError], line 38 *)

(** What is stored under a path. *)
Inductive File : Type :=
| Table (t : CsvTable)
| NoColumns                (* no header line *)
| Unparsable               (* rejected by the tokenizer, as a row with too many fields *)
| Defective (d : defect).

(** The files that can be opened. *)
Definition FileSystem : Type := string -> option File.

(** What [read_csv] returns. *)
Inductive Parsed : Type :=
| Typed (t : CsvTable)
| Untyped (d : defect).

(** [pd.read_csv(path, sep=";")]. *)
Definition read_csv (fs : FileSystem) (path : string) : result Parsed :=
  match fs path with
  | None => Raise FileNotFoundError
  | Some NoColumns => Raise EmptyDataError
  | Some Unparsable => Raise ParserError
  | Some (Table t) => Ok (Typed t)
  | Some (Defective d) => Ok (Untyped d)
  end.

(** The exception lines 33 to 38 raise on a frame with a defect. *)
Definition defect_exn (d : defect) : exn :=
  match d with
  | MissingColumn => KeyError
  | TextInYear => TypeError
  | TextInSpend => TypeError
  end.

(* ------------------------------------------------------------------------- *)
(** * [cargar_datos] *)
(* ------------------------------------------------------------------------- *)

(** A row of the data frame [cargar_datos] returns: the source columns
    (with [Marital_Status] renamed [EstadoCivil]) and the derived ones. *)
Record Row : Type := MkRow {
  source : RawRow;
  Edad : Z;
  GastoTotal : Z;
  Genero : option string;
  RangoEdad : option string
}.

(** [df.rename(columns={"Marital_Status": "EstadoCivil"})]. *)
Definition EstadoCivil (r : Row) : option string := Marital_Status (source r).

(** [cols], read on one row. *)
Definition cols (r : RawRow) : list (option Z) :=
  [MntWines r; MntFruits r; MntMeatProducts r;
   MntFishProducts r; MntSweetProducts r; MntGoldProds r].

(** [bins = list(range(10, 101, 10))]. *)
Definition bins : list Z := range 10 101 10.

(** [labels = [f"{i}-{i+9}" for i in bins[:-1]]]. *)
Definition labels : list string :=
  map (fun i => str i ++ "-" ++ str (i + 9)) (removelast bins).

(** Whether [df[cols]] has a float64 column: some spend cell of the file
    is empty. *)
Definition spend_is_float (t : CsvTable) : bool :=
  existsb (fun raw => existsb (fun c => match c with None => true | Some _ => false end)
                              (cols raw))
          (csv_rows t).

(** The derived columns of one row, given whether the spend columns are
    summed as float64, the year and the row's entry of the [Genero] column:
    [Edad = current_year - Year_Birth] (an int64 column),
    [GastoTotal = df[cols].fillna(0).sum(axis=1)] and
    [RangoEdad = pd.cut(Edad, bins=bins, labels=labels, right=False)]. *)
Definition derive (float_sum : bool) (current_year : Z) (raw : RawRow)
           (genero : option string) : Row :=
  let edad := Pandas.wrap64 (current_year - Year_Birth raw) in
  {| source := raw;
     Edad := edad;
     GastoTotal := Pandas.sum_axis1 float_sum (cols raw);
     Genero := genero;
     RangoEdad := Pandas.cut1 bins labels edad |}.

(** The [Genero] column: mapped from [Gender] when the file has that
    column, drawn from the reseeded global generator otherwise. *)
Definition genero_column (t : CsvTable) (g : NumpyRandom.mt19937_state)
  : list (option string) * NumpyRandom.mt19937_state :=
  if has_Gender t then
    (Pandas.map_dict [("M", "Hombre"); ("F", "Mujer")] (map Gender (csv_rows t)), g)
  else
    let g1 := NumpyRandom.seed 42 g in
    let '(c, g2) := NumpyRandom.choice ["Hombre"; "Mujer"] (List.length (csv_rows t)) g1 in
    (map Some c, g2).

(** The body of [cargar_datos(path)], run with the clock at [now_year] and
    the global numpy generator in state [g]; returns the frame (or the
    exception raised) and the generator's new state.  This is what a call
    runs when [st.cache_data] holds no result for [path]; the decorated
    function is [cargar_datos_cached] below. *)
Definition cargar_datos (fs : FileSystem) (now_year : Z) (path : string)
           (g : NumpyRandom.mt19937_state)
  : result (list Row) * NumpyRandom.mt19937_state :=
  match read_csv fs path with
  | Raise e => (Raise e, g)
  | Ok (Untyped d) => (Raise (defect_exn d), g)
  | Ok (Typed t) =>
      let current_year := now_year in
      let '(genero, g') := genero_column t g in
      (Ok (map (fun '(raw, gen) => derive (spend_is_float t) current_year raw gen)
               (combine (csv_rows t) genero)), g')
  end.

(** The store of [st.cache_data]: the frames returned so far, by argument. *)
Definition Cache : Type := list (string * list Row).

Fixpoint cache_get (c : Cache) (path : string) : option (list Row) :=
  match c with
  | [] => None
  | (k, df) :: t => if String.eqb path k then Some df else cache_get t path
  end.

(** [cargar_datos] as decorated with [@st.cache_data]: a call whose
    argument has a stored frame returns it and runs nothing (no file is
    read, no clock, the generator is left alone); otherwise the body runs
    and a returned frame is stored; an exception stores nothing. *)
Definition cargar_datos_cached (fs : FileSystem) (now_year : Z) (path : string)
           (c : Cache) (g : NumpyRandom.mt19937_state)
  : result (list Row) * Cache * NumpyRandom.mt19937_state :=
  match cache_get c path with
  | Some df => (Ok df, c, g)
  | None =>
      match cargar_datos fs now_year path g with
      | (Ok df, g') => (Ok df, (path, df) :: c, g')
      | (Raise e, g') => (Raise e, c, g')
      end
  end.

(* ------------------------------------------------------------------------- *)
(** * Sidebar and filter *)
(* ------------------------------------------------------------------------- *)

(** [df["EstadoCivil"].dropna().unique()] and its two siblings. *)
Definition estados_civiles (df : list Row) : list string :=
  Pandas.unique (Pandas.dropna (map EstadoCivil df)).
Definition rangos_edades (df : list Row) : list string :=
  Pandas.unique (Pandas.dropna (map RangoEdad df)).
Definition generos (df : list Row) : list string :=
  Pandas.unique (Pandas.dropna (map Genero df)).

(** The state of a multiselect: untouched, or holding the user's picks. *)
Inductive Widget : Type :=
| Untouched
| Picked (l : list string).

(** [st.sidebar.multiselect(label, options=options, default=default)]:
    the default until the user picks, then the picks that are options. *)
Definition multiselect (w : Widget) (options default : list string) : list string :=
  match w with
  | Untouched => default
  | Picked l => filter (fun x => Pandas.mem x options) l
  end.

Record Sidebar : Type := MkSidebar {
  w_estado : Widget;
  w_edad : Widget;
  w_genero : Widget
}.

(** [df[(df["EstadoCivil"].isin(filtros_estado)) &
        (df["RangoEdad"].isin(filtros_edad)) &
        (df["Genero"].isin(filtros_genero))]]. *)
Definition filtrar (df : list Row) (filtros_estado filtros_edad filtros_genero : list string)
  : list Row :=
  Pandas.loc df
    (Pandas.mask_and
       (Pandas.mask_and (Pandas.isin (map EstadoCivil df) filtros_estado)
                        (Pandas.isin (map RangoEdad df) filtros_edad))
       (Pandas.isin (map Genero df) filtros_genero)).

(** [df_filtrado] as the script computes it from the sidebar. *)
Definition df_filtrado (df : list Row) (ui : Sidebar) : list Row :=
  let filtros_estado := multiselect (w_estado ui) (estados_civiles df) (estados_civiles df) in
  let filtros_edad := multiselect (w_edad ui) (rangos_edades df) (rangos_edades df) in
  let filtros_genero := multiselect (w_genero ui) (generos df) (generos df) in
  filtrar df filtros_estado filtros_edad filtros_genero.

(* ------------------------------------------------------------------------- *)
(** * The script body: metrics, charts, insights *)
(* ------------------------------------------------------------------------- *)

Inductive metric_id : Type :=
| ClientesSegmentados
| GastoPromedio
| EdadPromedio
| GeneroDominante.

(** The value a metric shows, before formatting. *)
Inductive value : Type :=
| VInt (n : Z)
| VFloat (x : option Q)
| VStr (s : string).

(** The data handed to each figure. *)
Inductive figure : Type :=
| Histogram (x : list Z) (nbins : nat)
| BoxPlot (xy : list (option string * Z))
| BarChart (rows : list (string * option Q))
| Pyramid (y hombres mujeres : list Z)
| Pie (counts : list (string * nat)).

(** The calls into the rendering layer, in the order the script makes them. *)
Inductive event : Type :=
| st_metric (m : metric_id) (v : value) (delta : option value)
| st_error
| st_plotly_chart (f : figure)
| st_subheader
| st_markdown (pub_objetivo : Z) (gasto_top : string * option Q) (estado_comun : string).

(** How a run ends early: [st.stop()], or an uncaught exception. *)
Inductive halt : Type :=
| Stopped
| Uncaught (e : exn).

(** A script step: it extends the trace of rendering calls and either
    continues with a value or halts. *)
Definition Script (A : Type) : Type := list event -> list event * (A + halt).

Definition ret {A : Type} (a : A) : Script A := fun tr => (tr, inl a).

Definition bind {A B : Type} (m : Script A) (k : A -> Script B) : Script B :=
  fun tr =>
    match m tr with
    | (tr', inl a) => k a tr'
    | (tr', inr h) => (tr', inr h)
    end.

Notation "x <- m ;; k" := (bind m (fun x => k))
  (at level 61, m at next level, right associativity).
Notation "m ;; k" := (bind m (fun _ => k))
  (at level 61, right associativity).

Definition emit (e : event) : Script unit := fun tr => ((tr ++ [e])%list, inl tt).

Definition st_stop : Script unit := fun tr => (tr, inr Stopped).

Definition lift {A : Type} (r : result A) : Script A :=
  fun tr => match r with
            | Ok a => (tr, inl a)
            | Raise e => (tr, inr (Uncaught e))
            end.

Definition run (m : Script unit) : list event * option halt :=
  match m [] with
  | (tr, inl _) => (tr, None)
  | (tr, inr h) => (tr, Some h)
  end.

Definition len {A : Type} (l : list A) : Z := Z.of_nat (List.length l).

(** [df_filtrado.groupby("RangoEdad")["GastoTotal"].mean().reset_index()];
    [observed] is the value pandas gives [groupby]'s [observed] argument when
    the call leaves it out ([False] before pandas 3, [True] from pandas 3). *)
Definition gasto_por_rango (observed : bool) (sub : list Row) : list (string * option Q) :=
  Pandas.groupby_mean RangoEdad GastoTotal observed labels sub.

(** Adjacent duplicates removed from a sorted list. *)
Fixpoint dedup (l : list Z) : list Z :=
  match l with
  | [] => []
  | a :: t =>
      match t with
      | b :: _ => if a =? b then dedup t else a :: dedup t
      | [] => [a]
      end
  end.

(** [pop = df_filtrado.groupby(["Edad","Genero"]).size().unstack(fill_value=0)]:
    its index (the ages of the rows that have a [Genero], ascending) and,
    for a label [g], its column (0 where the pair does not occur, also when
    the column is added by the loop over the two labels). *)
Definition pop_index (sub : list Row) : list Z :=
  dedup (Pandas.sort_Z
           (map Edad (filter (fun r => match Genero r with Some _ => true | None => false end) sub))).

Definition pop_column (g : string) (sub : list Row) : list Z :=
  map (fun a => len (filter (fun r => (Edad r =? a) && Pandas.isin1 [g] (Genero r)) sub))
      (pop_index sub).

(** The script from the metrics on, over the loaded frame [df]. *)
Definition dashboard (observed : bool) (df : list Row) (ui : Sidebar) : Script unit :=
  let sub := df_filtrado df ui in
  (* col1 *)
  ratio <- lift (truediv (len sub) (len df)) ;;
  emit (st_metric ClientesSegmentados (VInt (len sub))
                  (Some (VFloat (Some (Qmult ratio (Qmake 100 1)))))) ;;
  (* col2 *)
  let gasto_prom := Pandas.mean (map GastoTotal sub) in
  emit (st_metric GastoPromedio (VFloat gasto_prom) None) ;;
  (* col3 *)
  let edad_prom := Pandas.mean (map Edad sub) in
  emit (st_metric EdadPromedio (VFloat edad_prom) None) ;;
  (* col4 *)
  (if negb (Pandas.empty sub) then
     genero_dom <- lift (Pandas.at0 (Pandas.mode (map Genero sub))) ;;
     let count_dom := Pandas.count genero_dom (Pandas.dropna (map Genero sub)) in
     emit (st_metric GeneroDominante (VStr genero_dom) (Some (VInt (Z.of_nat count_dom))))
   else
     emit (st_metric GeneroDominante (VStr "N/A") None)) ;;
  (* Graficos *)
  (if Pandas.empty sub then emit st_error ;; st_stop else ret tt) ;;
  emit (st_plotly_chart (Histogram (map Edad sub) 25)) ;;
  emit (st_plotly_chart (BoxPlot (map (fun r => (EstadoCivil r, Edad r)) sub))) ;;
  let por_rango := gasto_por_rango observed sub in
  emit (st_plotly_chart (BarChart por_rango)) ;;
  emit (st_plotly_chart
          (Pyramid (pop_index sub)
                   (map Z.opp (pop_column "Hombre" sub))
                   (pop_column "Mujer" sub))) ;;
  let genero_counts := Pandas.value_counts (map Genero sub) in
  emit (st_plotly_chart (Pie genero_counts)) ;;
  (* Insights *)
  emit st_subheader ;;
  if negb (Pandas.empty sub) then
    let pub_objetivo := Pandas.median (map Edad sub) in
    i <- lift (Pandas.idxmax (map snd por_rango)) ;;
    let gasto_top := nth i por_rango ("", None) in
    pub <- lift (py_int pub_objetivo) ;;
    estado <- lift (Pandas.at0 (Pandas.mode (map EstadoCivil sub))) ;;
    emit (st_markdown pub gasto_top estado)
  else ret tt.

(** One run of the script in a session whose cache is [c]: load through
    the cache, then render. *)
Definition script_run (observed : bool) (fs : FileSystem) (now_year : Z)
           (c : Cache) (g : NumpyRandom.mt19937_state) (ui : Sidebar)
  : list event * option halt :=
  match fst (fst (cargar_datos_cached fs now_year "marketing_campaign.csv" c g)) with
  | Raise e => ([], Some (Uncaught e))
  | Ok df => run (dashboard observed df ui)
  end.

(** The whole script in a fresh process (nothing cached): load, then
    render. *)
Definition main (observed : bool) (fs : FileSystem) (now_year : Z)
           (g : NumpyRandom.mt19937_state) (ui : Sidebar)
  : list event * option halt :=
  match fst (cargar_datos fs now_year "marketing_campaign.csv" g) with
  | Raise e => ([], Some (Uncaught e))
  | Ok df => run (dashboard observed df ui)
  end.

(* ------------------------------------------------------------------------- *)
(** * Sample inputs *)
(* ------------------------------------------------------------------------- *)

Definition raw_row (year : Z) (estado : option string) (gender : option string)
           (wines fruits : option Z) : RawRow :=
  {| Year_Birth := year; Marital_Status := estado; Gender := gender;
     MntWines := wines; MntFruits := fruits; MntMeatProducts := None;
     MntFishProducts := None; MntSweetProducts := None; MntGoldProds := None |}.

(** A file without a [Gender] column. *)
Definition sample_table : CsvTable :=
  {| has_Gender := false;
     csv_rows := [raw_row 1990 (Some "Single") None None None;
                  raw_row 1975 (Some "Married") None (Some 100) (Some 20);
                  raw_row 1962 (Some "Married") None (Some 7) None] |}.

(** A file with a [Gender] column, one cell of it empty. *)
Definition gender_table : CsvTable :=
  {| has_Gender := true;
     csv_rows := [raw_row 1990 (Some "Single") (Some "M") (Some 100) None;
                  raw_row 1991 (Some "Single") (Some "F") None (Some 200);
                  raw_row 1980 (Some "Married") None None None] |}.

(** A file with a customer born in 1900. *)
Definition old_table : CsvTable :=
  {| has_Gender := true;
     csv_rows := [raw_row 1990 (Some "Single") (Some "M") None None;
                  raw_row 1900 (Some "Widow") (Some "F") None None] |}.

(** A file holding the header line only. *)
Definition header_only : CsvTable := {| has_Gender := false; csv_rows := [] |}.

Definition sample_fs (t : CsvTable) : FileSystem :=
  fun path => if String.eqb path "marketing_campaign.csv" then Some (Table t) else None.

Definition g0 : NumpyRandom.mt19937_state := NumpyRandom.mt19937_seed 0.

Definition loaded (t : CsvTable) : list Row :=
  match fst (cargar_datos (sample_fs t) 2024 "marketing_campaign.csv" g0) with
  | Ok df => df
  | Raise _ => []
  end.

Definition no_picks : Sidebar :=
  {| w_estado := Untouched; w_edad := Untouched; w_genero := Untouched |}.

Definition nothing_picked : Sidebar :=
  {| w_estado := Picked []; w_edad := Untouched; w_genero := Untouched |}.

(* ------------------------------------------------------------------------- *)
(** * Predicates used in the statements *)
(* ------------------------------------------------------------------------- *)

(** The row test the three [isin] masks compute together. *)
Definition passes (fe fed fg : list string) (r : Row) : bool :=
  Pandas.isin1 fe (EstadoCivil r) && Pandas.isin1 fed (RangoEdad r)
  && Pandas.isin1 fg (Genero r).

Definition present {A : Type} (v : option A) : bool :=
  match v with Some _ => true | None => false end.

(** A row none of whose three filter columns is missing. *)
Definition complete (r : Row) : bool :=
  present (EstadoCivil r) && present (RangoEdad r) && present (Genero r).

(** The sidebar's three option lists taken as the allowed sets. *)
Definition filtrar_todo (df : list Row) : list Row :=
  filtrar df (estados_civiles df) (rangos_edades df) (generos df).

(** The [Genero] column of a result of [cargar_datos]. *)
Definition genero_of (res : result (list Row)) : result (list (option string)) :=
  match res with
  | Ok df => Ok (map Genero df)
  | Raise e => Raise e
  end.


(** A metric value that says "not applicable": NaN, or the label "N/A". *)
Definition not_applicable (v : value) : bool :=
  match v with
  | VFloat None => true
  | VStr s => String.eqb s "N/A"
  | _ => false
  end.

(** The lower edge of the bin a label names. *)
Fixpoint lookup_edge (l : list (string * Z)) (c : string) : option Z :=
  match l with
  | [] => None
  | (k, e) :: t => if String.eqb c k then Some e else lookup_edge t c
  end.
Definition lower_edge (c : string) : option Z := lookup_edge (combine labels bins) c.

(** [a] names a bin below the bin [b] names. *)
Definition edge_lt (a b : string) : Prop :=
  match lower_edge a, lower_edge b with
  | Some x, Some y => x < y
  | _, _ => False
  end.

(** The values of a categorical column are among its categories. *)
Definition categorical (sub : list Row) : Prop :=
  Forall (fun r => forall c, RangoEdad r = Some c -> In c labels) sub.

(** A bracket occurs in the frame. *)
Definition occurs (c : string) (sub : list Row) : Prop :=
  In (Some c) (map RangoEdad sub).

(** [v] is a most frequent non-missing value of the column and precedes,
    in the order of strings, every other value as frequent as it. *)
Definition smallest_most_frequent (v : string) (col : list (option string)) : Prop :=
  let vals := Pandas.dropna col in
  In v vals /\
  (forall w, (Pandas.count w vals <= Pandas.count v vals)%nat) /\
  (forall w, Pandas.count w vals = Pandas.count v vals -> String.leb v w = true).

(** The label of the decade [d], as the f-string writes it. *)
Definition decade_label (d : Z) : string := str (d * 10) ++ "-" ++ str (d * 10 + 9).

Ltac leb_cases x :=
  repeat match goal with
         | |- context [?b <=? x] => destruct (Z.leb_spec b x); try lia
         end.

(** The rows of a frame whose bracket is [c]. *)
Definition rows_of_bracket (c : string) (sub : list Row) : list Row :=
  filter (fun r => match RangoEdad r with
                   | Some b => String.eqb b c
                   | None => false
                   end) sub.

(** The quotient of the total spend of the rows by their number. *)
Definition spend_mean (rows : list Row) : Q :=
  Qmake (fold_right Z.add 0 (map GastoTotal rows)) (Pos.of_nat (List.length rows)).



Definition sum_nat (l : list nat) : nat := fold_right Nat.add O l.

(** The rows of a frame that carry the label [g] in [Genero]. *)
Definition with_genero (g : string) (sub : list Row) : list Row :=
  filter (fun r => Pandas.isin1 [g] (Genero r)) sub.

(* ------------------------------------------------------------------------- *)
(** * The generator agrees with numpy on seed 42 *)
(* ------------------------------------------------------------------------- *)

Example mt19937_first_42 :
  fst (NumpyRandom.mt19937_next (NumpyRandom.mt19937_seed 42)) = 1608637542.
Proof. vm_compute. reflexivity. Qed.

(** The reference value of MT19937: the 10000th output for the seed 5489. *)
Example mt19937_reference :
  NumpyRandom.nth_output (Z.to_nat 9999) (NumpyRandom.mt19937_seed 5489) = 4123659995.
Proof. vm_compute. reflexivity. Qed.

(** [np.random.seed(42); np.random.randint(0, 2, 10)]. *)
Example randint_42 :
  fst (NumpyRandom.random_bounded_fill 1 10 (NumpyRandom.mt19937_seed 42))
  = [0; 1; 0; 0; 0; 1; 0; 0; 0; 1].
Proof. vm_compute. reflexivity. Qed.

(** int64 and float64 arithmetic at the boundary: [2024 - (-2^63)] and
    [9223372036854775807 + 1] wrap; as float64 the latter is 2^63, and
    2^53 + 1 is not a float64. *)
Example wrap64_boundary :
  Pandas.wrap64 (2024 - (- 2 ^ 63)) = -9223372036854773784 /\
  Pandas.sum_axis1 false [Some 9223372036854775807; Some 1; Some 0; Some 0; Some 0; Some 0]
  = -9223372036854775808 /\
  Pandas.sum_axis1 true [Some 9223372036854775807; Some 1; None; Some 0; Some 0; Some 0]
  = 9223372036854775808 /\
  Pandas.round53 (2 ^ 53 + 1) = 2 ^ 53 /\
  Pandas.round53 (2 ^ 53 + 3) = 2 ^ 53 + 4.
Proof. repeat split; vm_compute; reflexivity. Qed.

(* ------------------------------------------------------------------------- *)
(** * The sample inputs, evaluated *)
(* ------------------------------------------------------------------------- *)

(** One record born in 1990, loaded in 2024: age 34, bracket "30-39",
    nothing spent. *)
Example sample_first_row :
  map (fun r => (Edad r, RangoEdad r, GastoTotal r)) (firstn 1 (loaded sample_table))
  = [(34, Some "30-39", 0)].
Proof. vm_compute. reflexivity. Qed.

(** Two records in one bracket, 100 and 200 spent: the mean is 300/2. *)
Example sample_mean_150 :
  gasto_por_rango true (df_filtrado (loaded gender_table) no_picks)
  = [("30-39", Some (Qmake 300 2))].
Proof. vm_compute. reflexivity. Qed.

Example sample_run :
  run (dashboard false (loaded gender_table) no_picks)
  = ([st_metric ClientesSegmentados (VInt 2) (Some (VFloat (Some (Qmake 200 3))));
      st_metric GastoPromedio (VFloat (Some (Qmake 300 2))) None;
      st_metric EdadPromedio (VFloat (Some (Qmake 67 2))) None;
      st_metric GeneroDominante (VStr "Hombre") (Some (VInt 1));
      st_plotly_chart (Histogram [34; 33] 25);
      st_plotly_chart (BoxPlot [(Some "Single", 34); (Some "Single", 33)]);
      st_plotly_chart
        (BarChart [("10-19", None); ("20-29", None); ("30-39", Some (Qmake 300 2));
                   ("40-49", None); ("50-59", None); ("60-69", None);
                   ("70-79", None); ("80-89", None); ("90-99", None)]);
      st_plotly_chart (Pyramid [33; 34] [0; -1] [1; 0]);
      st_plotly_chart (Pie [("Hombre", 1%nat); ("Mujer", 1%nat)]);
      st_subheader;
      st_markdown 33 ("30-39", Some (Qmake 300 2)) "Single"], None).
Proof. vm_compute. reflexivity. Qed.

(* ------------------------------------------------------------------------- *)
(** * Lists, masks and membership *)
(* ------------------------------------------------------------------------- *)

Section MaskLemmas.
Variable A : Type.

Lemma loc_map (p : A -> bool) (df : list A) :
  Pandas.loc df (map p df) = filter p df.
Proof.
  induction df as [|r df IH]; simpl; [reflexivity|].
  rewrite IH. reflexivity.
Qed.

Lemma mask_and_map (p q : A -> bool) (df : list A) :
  Pandas.mask_and (map p df) (map q df) = map (fun r => p r && q r) df.
Proof.
  induction df as [|r df IH]; simpl; [reflexivity|].
  rewrite IH. reflexivity.
Qed.

Lemma filter_idem (p : A -> bool) (l : list A) :
  filter p (filter p l) = filter p l.
Proof.
  induction l as [|a l IH]; simpl; [reflexivity|].
  destruct (p a) eqn:E; simpl; rewrite ?E, IH; reflexivity.
Qed.

Lemma filter_all (p : A -> bool) (l : list A) :
  filter p l = l <-> forallb p l = true.
Proof.
  induction l as [|a l IH]; simpl; [tauto|].
  destruct (p a) eqn:E; simpl.
  - rewrite <- IH. split; [intros H; injection H; auto | intros ->; reflexivity].
  - split; [|discriminate].
    intros H.
    assert (Hl : (List.length (filter p l) <= List.length l)%nat)
      by apply filter_length_le.
    rewrite H in Hl. simpl in Hl. lia.
Qed.

Lemma dropna_In (x : A) (s : list (option A)) :
  In x (Pandas.dropna s) <-> In (Some x) s.
Proof.
  induction s as [|[v|] s IH]; simpl.
  - tauto.
  - rewrite IH. split; intros [H|H]; auto; left; congruence.
  - rewrite IH. split; [auto | intros [H|H]; [discriminate | auto]].
Qed.
End MaskLemmas.

Lemma mem_In (v : string) (l : list string) : Pandas.mem v l = true <-> In v l.
Proof.
  unfold Pandas.mem. rewrite existsb_exists. split.
  - intros [x [Hx E]]. apply String.eqb_eq in E. subst. exact Hx.
  - intros H. exists v. split; [exact H | apply String.eqb_refl].
Qed.

Lemma mem_false (v : string) (l : list string) : Pandas.mem v l = false <-> ~ In v l.
Proof.
  rewrite <- mem_In. destruct (Pandas.mem v l); split; congruence.
Qed.

Lemma unique_acc_In (x : string) (s seen : list string) :
  In x (Pandas.unique_acc seen s) <-> In x s /\ ~ In x seen.
Proof.
  revert seen. induction s as [|v s IH]; intros seen; simpl; [tauto|].
  destruct (Pandas.mem v seen) eqn:E.
  - apply mem_In in E. rewrite IH. split.
    + intros [H1 H2]. auto.
    + intros [[H|H] H2]; [subst; contradiction | auto].
  - apply mem_false in E. simpl. rewrite IH. simpl. split.
    + intros [H|[H1 H2]]; [subst; auto | split; [auto | intros H; apply H2; auto]].
    + intros [[H|H] H2]; [auto|].
      destruct (string_dec v x) as [->|N]; [auto|].
      right. split; [exact H | intros [H3|H3]; contradiction].
Qed.

Lemma unique_In (x : string) (s : list string) : In x (Pandas.unique s) <-> In x s.
Proof. unfold Pandas.unique. rewrite unique_acc_In. simpl. tauto. Qed.

Lemma unique_acc_NoDup (s seen : list string) : NoDup (Pandas.unique_acc seen s).
Proof.
  revert seen. induction s as [|v s IH]; intros seen; simpl; [constructor|].
  destruct (Pandas.mem v seen); [apply IH|].
  constructor; [|apply IH].
  rewrite unique_acc_In. simpl. intros [_ H]. apply H. auto.
Qed.

Lemma isin1_true (values : list string) (v : option string) :
  Pandas.isin1 values v = true <-> exists x, v = Some x /\ In x values.
Proof.
  destruct v as [x|]; simpl.
  - rewrite mem_In. split; [intros H; exists x; auto | intros [y [E H]]; congruence].
  - split; [discriminate | intros [y [E _]]; discriminate].
Qed.

Lemma isin1_nil (v : option string) : Pandas.isin1 [] v = false.
Proof. destruct v; reflexivity. Qed.

(** The option list of a column contains every non-missing value of it. *)
Lemma isin1_options (f : Row -> option string) (df : list Row) (r : Row) :
  In r df ->
  Pandas.isin1 (Pandas.unique (Pandas.dropna (map f df))) (f r) = present (f r).
Proof.
  intros Hr. destruct (f r) as [x|] eqn:E; simpl; [|reflexivity].
  apply mem_In, unique_In, dropna_In. rewrite <- E. apply in_map. exact Hr.
Qed.

(* ------------------------------------------------------------------------- *)
(** * The filter *)
(* ------------------------------------------------------------------------- *)

(** The masked selection keeps, in order, the rows that pass the three tests. *)
Lemma filtrar_filter (df : list Row) (fe fed fg : list string) :
  filtrar df fe fed fg = filter (passes fe fed fg) df.
Proof.
  unfold filtrar, Pandas.isin.
  rewrite !map_map, !mask_and_map. apply loc_map.
Qed.

Lemma filtrar_todo_filter (df : list Row) : filtrar_todo df = filter complete df.
Proof.
  unfold filtrar_todo. rewrite filtrar_filter.
  apply filter_ext_in. intros r Hr.
  unfold passes, complete, estados_civiles, rangos_edades, generos.
  rewrite (isin1_options EstadoCivil df r Hr).
  rewrite (isin1_options RangoEdad df r Hr).
  rewrite (isin1_options Genero df r Hr).
  reflexivity.
Qed.

(** C5. A row is in the filtered subset exactly when it is a row of the
    frame whose EstadoCivil, RangoEdad and Genero are each present and in the
    corresponding allowed list; an empty allowed list, for any of the three
    columns, leaves no row. *)
Theorem filtrar_membership (df : list Row) (fe fed fg : list string) :
  (forall r, In r (filtrar df fe fed fg) <->
             In r df /\
             (exists e, EstadoCivil r = Some e /\ In e fe) /\
             (exists b, RangoEdad r = Some b /\ In b fed) /\
             (exists g, Genero r = Some g /\ In g fg)) /\
  filtrar df [] fed fg = [] /\
  filtrar df fe [] fg = [] /\
  filtrar df fe fed [] = [].
Proof.
  split; [|repeat split].
  - intros r. rewrite filtrar_filter, filter_In. unfold passes.
    rewrite !andb_true_iff, !isin1_true. tauto.
  - rewrite filtrar_filter. induction df as [|r df IH]; simpl; [reflexivity|].
    unfold passes at 1. rewrite isin1_nil. simpl. exact IH.
  - rewrite filtrar_filter. induction df as [|r df IH]; simpl; [reflexivity|].
    unfold passes at 1. rewrite isin1_nil, andb_false_r. simpl. exact IH.
  - rewrite filtrar_filter. induction df as [|r df IH]; simpl; [reflexivity|].
    unfold passes at 1. rewrite isin1_nil, andb_false_r. exact IH.
Qed.

(** C9. Filtering an already filtered frame with the same allowed lists
    changes nothing. *)
Theorem filtrar_idempotent (df : list Row) (fe fed fg : list string) :
  filtrar (filtrar df fe fed fg) fe fed fg = filtrar df fe fed fg.
Proof.
  rewrite !filtrar_filter. apply filter_idem.
Qed.

(** C1 as stated fails: with every option selected, the customer born in
    1900 (age 124, no age bracket) is left out. *)
Lemma filtrar_todo_drops_row :
  filtrar_todo (loaded old_table) <> loaded old_table /\
  df_filtrado (loaded old_table) no_picks <> loaded old_table.
Proof. split; vm_compute; discriminate. Qed.

(** C1, amended. With the sidebar untouched (every option selected) the
    filtered frame consists, in order, of the rows in which none of
    EstadoCivil, RangoEdad and Genero is missing; it is the whole frame
    exactly when no row has a missing value in these columns. *)
Theorem filtrar_todo_complete_rows (df : list Row) :
  df_filtrado df no_picks = filter complete df /\
  filtrar_todo df = filter complete df /\
  (filtrar_todo df = df <-> forallb complete df = true).
Proof.
  assert (E : filtrar_todo df = filter complete df) by apply filtrar_todo_filter.
  repeat split.
  - exact E.
  - exact E.
  - rewrite E. apply filter_all.
  - rewrite E. apply filter_all.
Qed.

(* ------------------------------------------------------------------------- *)
(** * Age brackets *)
(* ------------------------------------------------------------------------- *)

Lemma bins_eq : bins = [10; 20; 30; 40; 50; 60; 70; 80; 90; 100].
Proof. reflexivity. Qed.

Lemma labels_eq :
  labels = ["10-19"; "20-29"; "30-39"; "40-49"; "50-59";
            "60-69"; "70-79"; "80-89"; "90-99"].
Proof. reflexivity. Qed.

Lemma cut1_outside (x : Z) : ~ (10 <= x < 100) -> Pandas.cut1 bins labels x = None.
Proof.
  intros H. unfold Pandas.cut1. rewrite bins_eq. simpl.
  leb_cases x; reflexivity.
Qed.

Lemma cut1_inside (x : Z) :
  10 <= x < 100 -> Pandas.cut1 bins labels x = Some (decade_label (x / 10)).
Proof.
  intros H.
  assert (Hd : 1 <= x / 10 <= 9) by (Z.div_mod_to_equations; lia).
  assert (Hx : 10 * (x / 10) <= x < 10 * (x / 10) + 10)
    by (Z.div_mod_to_equations; lia).
  assert (Cases : x / 10 = 1 \/ x / 10 = 2 \/ x / 10 = 3 \/ x / 10 = 4 \/ x / 10 = 5
                  \/ x / 10 = 6 \/ x / 10 = 7 \/ x / 10 = 8 \/ x / 10 = 9) by lia.
  unfold Pandas.cut1. rewrite bins_eq, labels_eq.
  destruct Cases as [E|[E|[E|[E|[E|[E|[E|[E|E]]]]]]]]; rewrite E in *;
    simpl Pandas.searchsorted_right; leb_cases x; reflexivity.
Qed.

Lemma cut1_spec (x : Z) :
  (Pandas.cut1 bins labels x <> None <-> 10 <= x < 100) /\
  (forall l, Pandas.cut1 bins labels x = Some l ->
             l = str (x / 10 * 10) ++ "-" ++ str (x / 10 * 10 + 9)).
Proof.
  destruct (Z_le_dec 10 x) as [H1|H1]; [destruct (Z_lt_dec x 100) as [H2|H2]|].
  - rewrite cut1_inside by lia. split; [split; [lia | discriminate]|].
    intros l E. injection E as <-. reflexivity.
  - rewrite cut1_outside by lia. split; [split; [congruence | lia] | discriminate].
  - rewrite cut1_outside by lia. split; [split; [congruence | lia] | discriminate].
Qed.

Lemma cut1_in_labels (x : Z) (l : string) :
  Pandas.cut1 bins labels x = Some l -> In l labels.
Proof.
  unfold Pandas.cut1.
  destruct (_ || _); [discriminate|]. apply nth_error_In.
Qed.

(* ------------------------------------------------------------------------- *)
(** * The generator *)
(* ------------------------------------------------------------------------- *)

Lemma land_1_cases (v : Z) : Z.land v 1 = 0 \/ Z.land v 1 = 1.
Proof.
  assert (E : Z.land v 1 = v mod 2)
    by (change 1 with (Z.ones 1); rewrite Z.land_ones; [reflexivity | lia]).
  assert (0 <= v mod 2 < 2) by (apply Z.mod_pos_bound; lia). lia.
Qed.

(** With [mask = rng = 1] the first masked value is accepted. *)
Lemma bounded_no_retry (fuel : nat) (s : NumpyRandom.mt19937_state) :
  NumpyRandom.buffered_bounded_masked_uint32 fuel 1 1 s
  = (Z.land (fst (NumpyRandom.mt19937_next s)) 1, snd (NumpyRandom.mt19937_next s)).
Proof.
  destruct fuel; cbn [NumpyRandom.buffered_bounded_masked_uint32];
    destruct (NumpyRandom.mt19937_next s) as [v s']; cbn [fst snd]; [reflexivity|].
  destruct (land_1_cases v) as [E|E]; rewrite E; reflexivity.
Qed.

Lemma fill_bits (cnt : nat) (s : NumpyRandom.mt19937_state) :
  let out := fst (NumpyRandom.random_bounded_fill 1 cnt s) in
  List.length out = cnt /\ Forall (fun i => i = 0 \/ i = 1) out.
Proof.
  revert s. induction cnt as [|c IH]; intros s; cbn [NumpyRandom.random_bounded_fill].
  - split; [reflexivity | constructor].
  - change (1 =? 0) with false. cbv iota.
    change (NumpyRandom.gen_mask 1) with 1.
    rewrite bounded_no_retry.
    specialize (IH (snd (NumpyRandom.mt19937_next s))).
    destruct (NumpyRandom.random_bounded_fill 1 c (snd (NumpyRandom.mt19937_next s)))
      as [out s2].
    cbn [fst snd] in *. destruct IH as [IH1 IH2].
    split; [simpl; congruence|].
    constructor; [apply land_1_cases | exact IH2].
Qed.

(** A draw of [size] labels from two: [size] entries, each one of the two. *)
Lemma choice_two (a b : string) (size : nat) (s : NumpyRandom.mt19937_state) :
  let c := fst (NumpyRandom.choice [a; b] size s) in
  List.length c = size /\ Forall (fun x => x = a \/ x = b) c.
Proof.
  unfold NumpyRandom.choice. cbn [List.length Z.of_nat].
  change (Z.pos (Pos.of_succ_nat 1) - 1) with 1.
  pose proof (fill_bits size s) as H.
  destruct (NumpyRandom.random_bounded_fill 1 size s) as [idx s'].
  cbn [fst] in *. destruct H as [H1 H2].
  split; [rewrite length_map; exact H1|].
  apply Forall_map. eapply Forall_impl; [|exact H2].
  intros i [->| ->]; simpl; auto.
Qed.

(* ------------------------------------------------------------------------- *)
(** * [cargar_datos] *)
(* ------------------------------------------------------------------------- *)

Lemma genero_column_length (t : CsvTable) (g : NumpyRandom.mt19937_state) :
  List.length (fst (genero_column t g)) = List.length (csv_rows t).
Proof.
  unfold genero_column. destruct (has_Gender t).
  - cbn [fst]. unfold Pandas.map_dict. rewrite !length_map. reflexivity.
  - pose proof (choice_two "Hombre" "Mujer" (List.length (csv_rows t))
                           (NumpyRandom.seed 42 g)) as H.
    destruct (NumpyRandom.choice _ _ _) as [c g2]. cbn [fst] in *.
    rewrite length_map. apply H.
Qed.

(** What [cargar_datos] returns for a file with a header. *)
Lemma cargar_datos_table (fs : FileSystem) (y : Z) (path : string)
      (g : NumpyRandom.mt19937_state) (t : CsvTable) :
  fs path = Some (Table t) ->
  fst (cargar_datos fs y path g)
  = Ok (map (fun '(raw, gen) => derive (spend_is_float t) y raw gen)
            (combine (csv_rows t) (fst (genero_column t g)))).
Proof.
  intros E. unfold cargar_datos, read_csv. rewrite E.
  destruct (genero_column t g). reflexivity.
Qed.

Lemma cargar_datos_inv (fs : FileSystem) (y : Z) (path : string)
      (g : NumpyRandom.mt19937_state) (df : list Row) :
  fst (cargar_datos fs y path g) = Ok df ->
  exists t, fs path = Some (Table t) /\
            df = map (fun '(raw, gen) => derive (spend_is_float t) y raw gen)
                     (combine (csv_rows t) (fst (genero_column t g))).
Proof.
  intros H. destruct (fs path) as [[t| | |d]|] eqn:E.
  - exists t. split; [reflexivity|].
    rewrite (cargar_datos_table fs y path g E) in H. congruence.
  - unfold cargar_datos, read_csv in H. rewrite E in H. discriminate.
  - unfold cargar_datos, read_csv in H. rewrite E in H. discriminate.
  - unfold cargar_datos, read_csv in H. rewrite E in H. discriminate.
  - unfold cargar_datos, read_csv in H. rewrite E in H. discriminate.
Qed.

Lemma cargar_datos_row (fs : FileSystem) (y : Z) (path : string)
      (g : NumpyRandom.mt19937_state) (df : list Row) (r : Row) :
  fst (cargar_datos fs y path g) = Ok df -> In r df ->
  exists fl raw gen, r = derive fl y raw gen.
Proof.
  intros H Hr. destruct (cargar_datos_inv fs y path g H) as [t [_ ->]].
  apply in_map_iff in Hr. destruct Hr as [[raw gen] [<- _]].
  exists (spend_is_float t), raw, gen. reflexivity.
Qed.

Lemma map_source_combine (fl : bool) (y : Z) (rows : list RawRow)
      (gen : list (option string)) :
  List.length gen = List.length rows ->
  map source (map (fun '(raw, gn) => derive fl y raw gn) (combine rows gen)) = rows.
Proof.
  revert gen. induction rows as [|r rows IH]; intros [|gn gen] H; simpl in *;
    try reflexivity; try discriminate.
  f_equal. apply IH. lia.
Qed.

Lemma map_Genero_combine (fl : bool) (y : Z) (rows : list RawRow)
      (gen : list (option string)) :
  List.length gen = List.length rows ->
  map Genero (map (fun '(raw, gn) => derive fl y raw gn) (combine rows gen)) = gen.
Proof.
  revert gen. induction rows as [|r rows IH]; intros [|gn gen] H; simpl in *;
    try reflexivity; try discriminate.
  f_equal. apply IH. lia.
Qed.

(** The stored age is the int64 difference of the clock's year and the
    year of birth. *)
Lemma edad_int64 (fs : FileSystem) (y : Z) (path : string)
      (g : NumpyRandom.mt19937_state) (df : list Row) (r : Row) :
  fst (cargar_datos fs y path g) = Ok df ->
  In r df ->
  Edad r = Pandas.wrap64 (y - Year_Birth (source r)) /\
  RangoEdad r = Pandas.cut1 bins labels (Edad r).
Proof.
  intros H Hr. destruct (@cargar_datos_row fs y path g df r H Hr) as [fl [raw [gen ->]]].
  split; reflexivity.
Qed.

(** C4. In a loaded frame, a row has an age bracket exactly when its age is
    at least 10 and below 100, and the bracket is then the label of the
    decade of the age, from floor(age/10)*10 to floor(age/10)*10 + 9, one of
    the nine labels. *)
Theorem rango_edad_decade (fs : FileSystem) (y : Z) (path : string)
        (g : NumpyRandom.mt19937_state) (df : list Row) (r : Row) :
  fst (cargar_datos fs y path g) = Ok df ->
  In r df ->
  (RangoEdad r <> None <-> 10 <= Edad r < 100) /\
  (forall l, RangoEdad r = Some l ->
             l = str (Edad r / 10 * 10) ++ "-" ++ str (Edad r / 10 * 10 + 9)) /\
  (forall l, RangoEdad r = Some l -> In l labels).
Proof.
  intros H Hr. destruct (@edad_int64 fs y path g df r H Hr) as [_ E].
  rewrite E. destruct (cut1_spec (Edad r)) as [H1 H2].
  split; [exact H1|]. split; [exact H2|].
  intros l. apply cut1_in_labels.
Qed.

Lemma rango_edad_decade_witness :
  let r := derive true 2024 (raw_row 1990 (Some "Single") None None None)
                  (Some "Hombre") in
  Edad r = 34 /\ RangoEdad r = Some "30-39" /\
  (RangoEdad r <> None <-> 10 <= Edad r < 100) /\
  (forall l, RangoEdad r = Some l ->
             l = str (Edad r / 10 * 10) ++ "-" ++ str (Edad r / 10 * 10 + 9)).
Proof.
  intros r.
  assert (L : fst (cargar_datos (sample_fs sample_table) 2024 "marketing_campaign.csv" g0)
              = Ok (loaded sample_table)) by (vm_compute; reflexivity).
  assert (Hr : In r (loaded sample_table)) by (vm_compute; left; reflexivity).
  pose proof (@rango_edad_decade (sample_fs sample_table) 2024 "marketing_campaign.csv" g0
                                 (loaded sample_table) r L Hr) as [P1 [P2 _]].
  split; [reflexivity|]. split; [reflexivity|]. split; [exact P1 | exact P2].
Defined.

Lemma Forall_derive_combine (P : Row -> Prop) (Q : option string -> Prop)
      (fl : bool) (y : Z) (rows : list RawRow) (gen : list (option string)) :
  (forall raw gn, Q gn -> P (derive fl y raw gn)) ->
  Forall Q gen ->
  Forall P (map (fun '(raw, gn) => derive fl y raw gn) (combine rows gen)).
Proof.
  intros HPQ. revert gen. induction rows as [|r rows IH]; intros gen HQ; simpl.
  - constructor.
  - destruct gen as [|gn gen]; simpl; [constructor|].
    inversion HQ; subst. constructor; [apply HPQ; assumption | apply IH; assumption].
Qed.

Lemma combine_map_r (A B : Type) (f : A -> B) (l : list A) :
  combine l (map f l) = map (fun a => (a, f a)) l.
Proof. induction l as [|a l IH]; simpl; [reflexivity | rewrite IH; reflexivity]. Qed.

Lemma genero_column_mapped (t : CsvTable) (g : NumpyRandom.mt19937_state) :
  has_Gender t = true ->
  fst (genero_column t g)
  = map (fun raw => match Gender raw with
                    | Some k => dict_get [("M", "Hombre"); ("F", "Mujer")] k
                    | None => None
                    end) (csv_rows t).
Proof.
  intros E. unfold genero_column. rewrite E. cbn [fst].
  unfold Pandas.map_dict. rewrite map_map. reflexivity.
Qed.

(** Without a [Gender] column the labels are the draw made right after
    reseeding with 42, whatever state the generator was in. *)
Lemma genero_column_seeded (t : CsvTable) (g : NumpyRandom.mt19937_state) :
  has_Gender t = false ->
  fst (genero_column t g)
  = map Some (fst (NumpyRandom.choice ["Hombre"; "Mujer"] (List.length (csv_rows t))
                                     (NumpyRandom.mt19937_seed 42))).
Proof.
  intros E. unfold genero_column. rewrite E. unfold NumpyRandom.seed.
  destruct (NumpyRandom.choice _ _ _). reflexivity.
Qed.

Lemma genero_column_state_independent (t : CsvTable) (g1 g2 : NumpyRandom.mt19937_state) :
  fst (genero_column t g1) = fst (genero_column t g2).
Proof.
  destruct (has_Gender t) eqn:E.
  - rewrite !genero_column_mapped by exact E. reflexivity.
  - rewrite !genero_column_seeded by exact E. reflexivity.
Qed.

Lemma genero_of_table (fs : FileSystem) (y : Z) (path : string)
      (g : NumpyRandom.mt19937_state) (t : CsvTable) :
  fs path = Some (Table t) ->
  genero_of (fst (cargar_datos fs y path g)) = Ok (fst (genero_column t g)).
Proof.
  intros E. rewrite (@cargar_datos_table fs y path g t E). cbn [genero_of].
  rewrite map_Genero_combine; [reflexivity | apply genero_column_length].
Qed.

Lemma genero_of_state_independent (fs : FileSystem) (path : string) (y1 y2 : Z)
      (g1 g2 : NumpyRandom.mt19937_state) :
  genero_of (fst (cargar_datos fs y1 path g1))
  = genero_of (fst (cargar_datos fs y2 path g2)).
Proof.
  destruct (fs path) as [[t| | |d]|] eqn:E.
  - rewrite !(genero_of_table fs _ path _ E).
    f_equal. apply genero_column_state_independent.
  - unfold cargar_datos, read_csv. rewrite E. reflexivity.
  - unfold cargar_datos, read_csv. rewrite E. reflexivity.
  - unfold cargar_datos, read_csv. rewrite E. reflexivity.
  - unfold cargar_datos, read_csv. rewrite E. reflexivity.
Qed.

(** C3 as stated fails: in a file that has a [Gender] column, a row whose
    cell is empty gets no label. *)
Lemma genero_missing_after_derivation :
  fst (cargar_datos (sample_fs gender_table) 2024 "marketing_campaign.csv" g0)
  = Ok (loaded gender_table) /\
  map Genero (loaded gender_table) = [Some "Hombre"; Some "Mujer"; None].
Proof. split; vm_compute; reflexivity. Qed.

(** C3, amended. Loading a file with a header gives a frame with one row
    per data row in which: when the file has no [Gender] column, the Genero
    column is the draw [np.random.choice(["Hombre","Mujer"], size=len(df))]
    made right after [np.random.seed(42)], so every row's Genero is "Hombre"
    or "Mujer"; when it has one, Genero is "Hombre" where the cell is "M",
    "Mujer" where it is "F", and missing for any other or empty cell. *)
Theorem genero_labels (fs : FileSystem) (y : Z) (path : string)
        (g : NumpyRandom.mt19937_state) (t : CsvTable) :
  fs path = Some (Table t) ->
  exists df,
    fst (cargar_datos fs y path g) = Ok df /\
    map source df = csv_rows t /\
    (has_Gender t = false ->
     map Genero df
     = map Some (fst (NumpyRandom.choice ["Hombre"; "Mujer"] (List.length (csv_rows t))
                                        (NumpyRandom.mt19937_seed 42))) /\
     Forall (fun r => Genero r = Some "Hombre" \/ Genero r = Some "Mujer") df) /\
    (has_Gender t = true ->
     Forall (fun r =>
               (Gender (source r) = Some "M" -> Genero r = Some "Hombre") /\
               (Gender (source r) = Some "F" -> Genero r = Some "Mujer") /\
               (Gender (source r) <> Some "M" -> Gender (source r) <> Some "F" ->
                Genero r = None)) df).
Proof.
  intros E. eexists. split; [apply (@cargar_datos_table fs y path g t E)|].
  split; [apply map_source_combine, genero_column_length|]. split.
  - intros HG. split.
    + rewrite map_Genero_combine by apply genero_column_length.
      apply genero_column_seeded, HG.
    + rewrite genero_column_seeded by exact HG.
      apply Forall_derive_combine
        with (Q := fun gn => gn = Some "Hombre" \/ gn = Some "Mujer").
      * intros raw gn H. exact H.
      * apply Forall_map.
        eapply Forall_impl; [|apply (choice_two "Hombre" "Mujer")].
        intros x [->| ->]; auto.
  - intros HG. rewrite genero_column_mapped by exact HG.
    rewrite combine_map_r, map_map. apply Forall_map, Forall_forall.
    intros raw _. cbn [derive source Genero].
    destruct (Gender raw) as [k|]; [|repeat split; congruence].
    cbn [dict_get].
    destruct (String.eqb_spec k "M") as [->|NM].
    + repeat split; congruence.
    + destruct (String.eqb_spec k "F") as [->|NF]; repeat split; congruence.
Qed.

Lemma genero_labels_witness :
  exists df,
    fst (cargar_datos (sample_fs sample_table) 2024 "marketing_campaign.csv" g0) = Ok df /\
    map Genero df = [Some "Hombre"; Some "Mujer"; Some "Hombre"].
Proof.
  destruct (@genero_labels (sample_fs sample_table) 2024 "marketing_campaign.csv" g0
                           sample_table eq_refl) as [df [H1 [_ [H2 _]]]].
  exists df. split; [exact H1|].
  destruct (H2 eq_refl) as [H3 _]. rewrite H3. vm_compute. reflexivity.
Defined.

(** C8. The Genero column does not depend on the state the global generator
    is in when [cargar_datos] starts, nor on the clock: two runs on the same
    file give the same column, in particular a second run that starts from
    the generator state the first run left behind. *)
Theorem genero_deterministic (fs : FileSystem) (path : string) (y1 y2 : Z)
        (g1 g2 : NumpyRandom.mt19937_state) :
  genero_of (fst (cargar_datos fs y1 path g1))
  = genero_of (fst (cargar_datos fs y2 path g2)) /\
  genero_of (fst (cargar_datos fs y2 path (snd (cargar_datos fs y1 path g1))))
  = genero_of (fst (cargar_datos fs y1 path g1)).
Proof.
  split; apply genero_of_state_independent.
Qed.



(* ------------------------------------------------------------------------- *)
(** * Metrics on an empty selection *)
(* ------------------------------------------------------------------------- *)

(** On a frame without rows the first metric divides by zero. *)
Lemma dashboard_empty_frame (observed : bool) (ui : Sidebar) :
  run (dashboard observed [] ui) = ([], Some (Uncaught ZeroDivisionError)).
Proof. destruct ui as [[|a] [|b] [|c]]; reflexivity. Qed.

(** In a fresh process the cache holds nothing and the body runs. *)
Lemma script_run_fresh (observed : bool) (fs : FileSystem) (y : Z)
      (g : NumpyRandom.mt19937_state) (ui : Sidebar) :
  script_run observed fs y [] g ui = main observed fs y g ui.
Proof.
  unfold script_run, main, cargar_datos_cached. cbn [cache_get].
  destruct (cargar_datos fs y "marketing_campaign.csv" g) as [[df|e] g']; reflexivity.
Qed.

(** Once a frame is stored, later runs render it again: the file, the
    clock and the generator are not consulted. *)
Lemma script_run_cached (observed : bool) (fs fs' : FileSystem) (y y' : Z)
      (g g' : NumpyRandom.mt19937_state) (ui : Sidebar) (df : list Row) :
  fst (cargar_datos fs y "marketing_campaign.csv" g) = Ok df ->
  let c := snd (fst (cargar_datos_cached fs y "marketing_campaign.csv" [] g)) in
  script_run observed fs' y' c g' ui = run (dashboard observed df ui) /\
  snd (cargar_datos_cached fs' y' "marketing_campaign.csv" c g') = g'.
Proof.
  intros H. unfold script_run, cargar_datos_cached. cbn [cache_get].
  destruct (cargar_datos fs y "marketing_campaign.csv" g) as [[df0|e] g0'];
    cbn [fst snd] in *; [|discriminate].
  injection H as ->. cbn [cache_get]. rewrite String.eqb_refl. split; reflexivity.
Qed.

Lemma main_header_only :
  main false (sample_fs header_only) 2024 g0 no_picks
  = ([], Some (Uncaught ZeroDivisionError)).
Proof. vm_compute. reflexivity. Qed.

(** C7 as stated fails: with nothing left after filtering, the customer
    count and its share of the total are the numbers 0 and 0/2, not a
    not-applicable value. *)
Lemma empty_selection_count_is_a_number :
  df_filtrado (loaded old_table) nothing_picked = [] /\
  run (dashboard false (loaded old_table) nothing_picked)
  = ([st_metric ClientesSegmentados (VInt 0) (Some (VFloat (Some (Qmake 0 2))));
      st_metric GastoPromedio (VFloat None) None;
      st_metric EdadPromedio (VFloat None) None;
      st_metric GeneroDominante (VStr "N/A") None;
      st_error], Some Stopped) /\
  not_applicable (VInt 0) = false /\
  not_applicable (VFloat (Some (Qmake 0 2))) = false.
Proof. repeat split; vm_compute; reflexivity. Qed.

(** C7, amended. When the frame has rows and the filtered subset has none,
    the run raises nothing and ends at [st.stop()]: the count is 0 and its
    share of the total a float equal to 0, the mean spend and the mean age
    are NaN, the dominant gender is the label "N/A", the error message is
    shown, and no chart and no insight is rendered. *)
Theorem empty_selection_metrics (observed : bool) (df : list Row) (ui : Sidebar) :
  df <> [] ->
  df_filtrado df ui = [] ->
  exists pct tr,
    Qeq pct 0 /\
    tr = [st_metric ClientesSegmentados (VInt 0) (Some (VFloat (Some pct)));
          st_metric GastoPromedio (VFloat None) None;
          st_metric EdadPromedio (VFloat None) None;
          st_metric GeneroDominante (VStr "N/A") None;
          st_error] /\
    run (dashboard observed df ui) = (tr, Some Stopped) /\
    (forall f, ~ In (st_plotly_chart f) tr) /\
    ~ In st_subheader tr /\
    (forall p t e, ~ In (st_markdown p t e) tr).
Proof.
  intros Hdf Hsub.
  exists (Qmult (Qmake 0 (Z.to_pos (len df))) (Qmake 100 1)). eexists.
  split; [reflexivity|]. split; [reflexivity|]. split.
  - unfold dashboard. cbv zeta. rewrite Hsub.
    destruct df as [|r df]; [contradiction|].
    unfold run, bind, lift, truediv, len. cbn [List.length].
    replace (Z.of_nat (S (List.length df)) =? 0) with false
      by (symmetry; apply Z.eqb_neq; lia).
    reflexivity.
  - repeat split.
    + intros f H. simpl in H. intuition discriminate.
    + intros H. simpl in H. intuition discriminate.
    + intros p t e H. simpl in H. intuition discriminate.
Qed.

Lemma empty_selection_metrics_witness :
  exists pct tr,
    Qeq pct 0 /\
    run (dashboard false (loaded old_table) nothing_picked) = (tr, Some Stopped) /\
    (forall f, ~ In (st_plotly_chart f) tr).
Proof.
  destruct (@empty_selection_metrics false (loaded old_table) nothing_picked)
    as [pct [tr [H1 [_ [H2 [H3 _]]]]]].
  - vm_compute. discriminate.
  - vm_compute. reflexivity.
  - exists pct, tr. repeat split; assumption.
Defined.

(* ------------------------------------------------------------------------- *)
(** * Mean spend by age bracket *)
(* ------------------------------------------------------------------------- *)

Lemma isin1_single (c : string) (v : option string) :
  Pandas.isin1 [c] v = true <-> v = Some c.
Proof.
  rewrite isin1_true. split.
  - intros [x [-> [->|[]]]]. reflexivity.
  - intros ->. exists c. simpl. auto.
Qed.

Lemma group_empty_iff (sub : list Row) (c : string) :
  Pandas.empty (Pandas.group RangoEdad sub c) = true <-> ~ occurs c sub.
Proof.
  unfold occurs, Pandas.group. induction sub as [|r sub IH]; simpl.
  - split; [auto | reflexivity].
  - destruct (Pandas.isin1 [c] (RangoEdad r)) eqn:E.
    + apply isin1_single in E. simpl. split; [discriminate|].
      intros H. exfalso. apply H. left. exact E.
    + rewrite IH. split.
      * intros H [H1|H1]; [|auto].
        apply isin1_single in H1. congruence.
      * intros H H1. apply H. right. exact H1.
Qed.

Lemma occurs_dec (c : string) (sub : list Row) : {occurs c sub} + {~ occurs c sub}.
Proof.
  unfold occurs. apply in_dec. decide equality. apply string_dec.
Qed.

Lemma mean_None (l : list Z) : Pandas.mean l = None <-> l = [].
Proof. destruct l; simpl; split; congruence. Qed.

Lemma StronglySorted_filter (A : Type) (R : A -> A -> Prop) (p : A -> bool) (l : list A) :
  StronglySorted R l -> StronglySorted R (filter p l).
Proof.
  induction 1 as [|a l Hs IH Hf]; simpl; [constructor|].
  destruct (p a); [|exact IH].
  constructor; [exact IH|].
  rewrite Forall_forall in *. intros x Hx. apply filter_In in Hx. apply Hf, Hx.
Qed.

Lemma labels_sorted : StronglySorted edge_lt labels.
Proof.
  rewrite labels_eq.
  repeat (constructor; [|repeat constructor; vm_compute; reflexivity]).
  constructor.
Qed.

Lemma labels_NoDup : NoDup labels.
Proof.
  rewrite labels_eq.
  repeat (constructor; [simpl; intuition discriminate|]). constructor.
Qed.

Lemma map_fst_groupby (observed : bool) (cats : list string) (sub : list Row) :
  map fst (Pandas.groupby_mean RangoEdad GastoTotal observed cats sub)
  = if observed
    then filter (fun c => negb (Pandas.empty (Pandas.group RangoEdad sub c))) cats
    else cats.
Proof.
  unfold Pandas.groupby_mean. rewrite map_map. cbn [fst]. apply map_id.
Qed.

(** C2 as stated fails when [groupby] keeps unobserved categories (its
    behaviour when [observed] is left out, before pandas 3): brackets that
    no row of the subset has are listed, with a NaN mean. *)
Lemma gasto_por_rango_lists_absent_brackets :
  map RangoEdad (loaded sample_table) = [Some "30-39"; Some "40-49"; Some "60-69"] /\
  gasto_por_rango false (loaded sample_table)
  = [("10-19", None); ("20-29", None); ("30-39", Some (Qmake 0 1));
     ("40-49", Some (Qmake 120 1)); ("50-59", None); ("60-69", Some (Qmake 7 1));
     ("70-79", None); ("80-89", None); ("90-99", None)].
Proof. split; vm_compute; reflexivity. Qed.

Lemma group_rows_of_bracket (sub : list Row) (c : string) :
  Pandas.group RangoEdad sub c = rows_of_bracket c sub.
Proof.
  unfold Pandas.group, rows_of_bracket. apply filter_ext. intros r.
  destruct (RangoEdad r) as [b|]; [|reflexivity].
  simpl. unfold Pandas.mem. simpl. apply orb_false_r.
Qed.

Lemma mean_spend (rows : list Row) :
  rows <> [] -> Pandas.mean (map GastoTotal rows) = Some (spend_mean rows).
Proof.
  destruct rows as [|r rows]; [congruence|]. intros _.
  unfold spend_mean, Pandas.mean, Pandas.sum. cbn [map].
  change (List.length (GastoTotal r :: map GastoTotal rows))
    with (S (List.length (map GastoTotal rows))).
  rewrite length_map. reflexivity.
Qed.

Lemma rows_of_bracket_nonempty (sub : list Row) (c : string) :
  occurs c sub <-> rows_of_bracket c sub <> [].
Proof.
  rewrite <- group_rows_of_bracket. split.
  - intros Ho E.
    assert (Em : Pandas.empty (Pandas.group RangoEdad sub c) = true)
      by (rewrite E; reflexivity).
    apply group_empty_iff in Em. contradiction.
  - intros Hne. destruct (occurs_dec c sub) as [Ho|Hn]; [exact Ho|].
    apply group_empty_iff in Hn.
    destruct (Pandas.group RangoEdad sub c); [congruence | discriminate].
Qed.

(** C2, amended. For a subset whose brackets are categories of the column,
    the result lists brackets in ascending order, none twice, and every
    bracket that occurs in the subset is listed with the mean of its rows:
    the total spend of the rows of that bracket divided by their number.
    A bracket that does not occur in the subset is listed only when
    [groupby] keeps unobserved categories ([observed=False]), and then with
    a NaN mean; in that case the result lists all nine brackets.  With
    [observed=True] the brackets listed are exactly those that occur. *)
Theorem gasto_por_rango_brackets (observed : bool) (sub : list Row) :
  categorical sub ->
  let res := gasto_por_rango observed sub in
  StronglySorted edge_lt (map fst res) /\
  NoDup (map fst res) /\
  (forall c, occurs c sub ->
             rows_of_bracket c sub <> [] /\
             In (c, Some (spend_mean (rows_of_bracket c sub))) res) /\
  (forall c m, In (c, m) res -> occurs c sub ->
               m = Some (spend_mean (rows_of_bracket c sub))) /\
  (forall c m, In (c, m) res -> ~ occurs c sub -> observed = false /\ m = None) /\
  (observed = false -> map fst res = labels) /\
  (observed = true -> forall c, In c (map fst res) <-> occurs c sub).
Proof.
  intros Hcat res.
  assert (Hlab : forall c, occurs c sub -> In c labels).
  { intros c Hc. unfold occurs in Hc. apply in_map_iff in Hc.
    destruct Hc as [r [E Hr]]. unfold categorical in Hcat.
    rewrite Forall_forall in Hcat. exact (Hcat r Hr c E). }
  assert (Hfst : map fst res
                 = if observed
                   then filter (fun c => negb (Pandas.empty (Pandas.group RangoEdad sub c)))
                               labels
                   else labels) by apply map_fst_groupby.
  assert (Hin : forall c m, In (c, m) res <->
                            In c (map fst res) /\
                            m = Pandas.mean (map GastoTotal (rows_of_bracket c sub))).
  { intros c m. rewrite Hfst, <- group_rows_of_bracket.
    unfold res, gasto_por_rango, Pandas.groupby_mean.
    rewrite in_map_iff. split.
    - intros [x [E Hx]]. injection E as <- <-. auto.
    - intros [Hc ->]. exists c. auto. }
  assert (Hlisted : forall c, occurs c sub -> In c (map fst res)).
  { intros c Hc. rewrite Hfst. destruct observed; [|apply Hlab, Hc].
    apply filter_In. split; [apply Hlab, Hc|].
    destruct (Pandas.empty (Pandas.group RangoEdad sub c)) eqn:Em; [|reflexivity].
    apply group_empty_iff in Em. contradiction. }
  assert (Hocc : forall c, In c (map fst res) ->
                           ~ occurs c sub -> observed = false).
  { intros c Hc Hn. destruct observed; [|reflexivity].
    rewrite Hfst in Hc. apply filter_In in Hc. destruct Hc as [_ Hc].
    apply group_empty_iff in Hn. rewrite Hn in Hc. discriminate. }
  split; [|split; [|split; [|split; [|split; [|split]]]]].
  - rewrite Hfst. destruct observed;
      [apply StronglySorted_filter|]; apply labels_sorted.
  - rewrite Hfst. destruct observed; [apply NoDup_filter|]; apply labels_NoDup.
  - intros c Hc. pose proof (proj1 (rows_of_bracket_nonempty sub c) Hc) as Hne.
    split; [exact Hne|]. apply Hin. split; [apply Hlisted, Hc|].
    symmetry. apply mean_spend, Hne.
  - intros c m Hcm Hc. apply Hin in Hcm. destruct Hcm as [_ ->].
    apply mean_spend, rows_of_bracket_nonempty, Hc.
  - intros c m Hcm Hn. apply Hin in Hcm. destruct Hcm as [Hc ->].
    split; [exact (Hocc c Hc Hn)|].
    destruct (rows_of_bracket c sub) as [|r rows] eqn:E; [reflexivity|].
    exfalso. apply Hn, rows_of_bracket_nonempty. rewrite E. discriminate.
  - intros ->. exact Hfst.
  - intros Hobs c. split.
    + intros Hc. destruct (occurs_dec c sub) as [Ho|Hn]; [exact Ho|].
      pose proof (Hocc c Hc Hn). congruence.
    + apply Hlisted.
Qed.

Lemma categorical_loaded (fs : FileSystem) (y : Z) (path : string)
      (g : NumpyRandom.mt19937_state) (df : list Row) :
  fst (cargar_datos fs y path g) = Ok df -> categorical df.
Proof.
  intros H. apply Forall_forall. intros r Hr c E.
  destruct (@cargar_datos_row fs y path g df r H Hr) as [fl [raw [gen ->]]].
  cbn [derive RangoEdad] in E. exact (@cut1_in_labels _ _ E).
Qed.

Lemma categorical_filtrar (df : list Row) (fe fed fg : list string) :
  categorical df -> categorical (filtrar df fe fed fg).
Proof.
  unfold categorical. rewrite filtrar_filter, !Forall_forall.
  intros H r Hr. apply filter_In in Hr. apply H, Hr.
Qed.

Lemma gasto_por_rango_brackets_witness :
  categorical (loaded gender_table) /\
  map fst (gasto_por_rango false (loaded gender_table)) = labels /\
  In ("30-39", Some (Qmake 300 2)) (gasto_por_rango true (loaded gender_table)) /\
  (forall c, In c (map fst (gasto_por_rango true (loaded gender_table)))
             <-> occurs c (loaded gender_table)).
Proof.
  assert (H : categorical (loaded gender_table)).
  { apply (@categorical_loaded (sample_fs gender_table) 2024 "marketing_campaign.csv" g0).
    vm_compute. reflexivity. }
  pose proof (@gasto_por_rango_brackets false (loaded gender_table) H) as P.
  pose proof (@gasto_por_rango_brackets true (loaded gender_table) H) as Q.
  cbv zeta in P, Q.
  destruct P as [_ [_ [_ [_ [_ [P _]]]]]]. destruct Q as [_ [_ [Q1 [_ [_ [_ Q]]]]]].
  split; [exact H|]. split; [exact (P eq_refl)|]. split; [|exact (Q eq_refl)].
  assert (O : occurs "30-39" (loaded gender_table)) by (vm_compute; left; reflexivity).
  destruct (Q1 "30-39" O) as [_ M].
  assert (E : spend_mean (rows_of_bracket "30-39" (loaded gender_table)) = Qmake 300 2)
    by (vm_compute; reflexivity).
  rewrite E in M. exact M.
Defined.

(* ------------------------------------------------------------------------- *)
(** * The mode and its tie-break *)
(* ------------------------------------------------------------------------- *)

Lemma compare_refl (s : string) : String.compare s s = Eq.
Proof.
  pose proof (String.compare_antisym s s) as H.
  destruct (String.compare s s); simpl in H; congruence.
Qed.

Lemma leb_refl (s : string) : String.leb s s = true.
Proof. unfold String.leb. rewrite compare_refl. reflexivity. Qed.

Lemma ascii_compare_Lt (a b : ascii) :
  Ascii.compare a b = Lt <-> (N_of_ascii a < N_of_ascii b)%N.
Proof. unfold Ascii.compare. apply N.compare_lt_iff. Qed.

Lemma ascii_compare_Gt (a b : ascii) :
  Ascii.compare a b = Gt <-> (N_of_ascii b < N_of_ascii a)%N.
Proof. unfold Ascii.compare. apply N.compare_gt_iff. Qed.

Lemma ascii_compare_Eq (a b : ascii) :
  Ascii.compare a b = Eq <-> N_of_ascii a = N_of_ascii b.
Proof. unfold Ascii.compare. apply N.compare_eq_iff. Qed.

Lemma compare_not_Gt_trans (a b c : string) :
  String.compare a b <> Gt -> String.compare b c <> Gt -> String.compare a c <> Gt.
Proof.
  revert b c. induction a as [|x a IH]; intros [|y b] [|z c]; simpl;
    try congruence.
  destruct (Ascii.compare x y) eqn:Exy; try congruence;
    destruct (Ascii.compare y z) eqn:Eyz; try congruence;
      destruct (Ascii.compare x z) eqn:Exz; try congruence; intros H1 H2;
        try (apply IH with (b := b); assumption);
        exfalso;
        rewrite ?ascii_compare_Lt, ?ascii_compare_Gt, ?ascii_compare_Eq in *; lia.
Qed.

Lemma leb_trans (a b c : string) :
  String.leb a b = true -> String.leb b c = true -> String.leb a c = true.
Proof.
  unfold String.leb. intros H1 H2.
  pose proof (@compare_not_Gt_trans a b c) as H.
  destruct (String.compare a b); try discriminate;
    destruct (String.compare b c); try discriminate;
      destruct (String.compare a c); try reflexivity;
        exfalso; apply H; congruence.
Qed.

Lemma insert_sorted_In (x v : string) (l : list string) :
  In x (Pandas.insert_sorted v l) <-> x = v \/ In x l.
Proof.
  induction l as [|h t IH]; simpl.
  - split; [intros [H|[]]; auto | intros [H|[]]; auto].
  - destruct (String.leb v h); simpl; [split; intros [H|H]; auto|].
    rewrite IH. split; [intros [H|[H|H]] | intros [H|[H|H]]]; auto.
Qed.

Lemma np_sort_In (x : string) (l : list string) : In x (Pandas.np_sort l) <-> In x l.
Proof.
  induction l as [|a l IH]; simpl; [tauto|].
  rewrite insert_sorted_In, IH. split; intros [H|H]; auto.
Qed.

(** The first entry of a sorted list precedes every entry. *)
Lemma np_sort_head (l : list string) (h : string) (t : list string) :
  Pandas.np_sort l = h :: t -> forall x, In x l -> String.leb h x = true.
Proof.
  revert h t. induction l as [|a l IH]; intros h t E x Hx; [contradiction|].
  simpl in E. destruct (Pandas.np_sort l) as [|h' t'] eqn:Es.
  - assert (l = []) as ->.
    { destruct l as [|b l]; [reflexivity|].
      assert (Hb : In b (Pandas.np_sort (b :: l))) by (apply np_sort_In; left; reflexivity).
      rewrite Es in Hb. contradiction. }
    simpl in E. injection E as <- <-. destruct Hx as [->|[]]. apply leb_refl.
  - simpl in E. destruct (String.leb a h') eqn:L.
    + injection E as <- <-. destruct Hx as [->|Hx]; [apply leb_refl|].
      apply leb_trans with (b := h'); [exact L | exact (IH h' t' eq_refl x Hx)].
    + injection E as <- <-. destruct Hx as [->|Hx]; [|exact (IH h' _ eq_refl x Hx)].
      destruct (String.leb_total h' x) as [H|H]; [exact H | congruence].
Qed.

Lemma count_pos (v : string) (l : list string) :
  (0 < Pandas.count v l)%nat <-> In v l.
Proof.
  unfold Pandas.count. induction l as [|a l IH]; simpl; [split; [lia | tauto]|].
  destruct (String.eqb_spec v a) as [->|N]; simpl.
  - split; [auto | lia].
  - rewrite IH. split; [auto | intros [H|H]; [congruence | exact H]].
Qed.

Lemma max_ge (f : string -> nat) (keys : list string) (k : string) :
  In k keys -> (f k <= fold_right Nat.max O (map f keys))%nat.
Proof.
  induction keys as [|a keys IH]; simpl; [tauto|].
  intros [->|H]; [lia | specialize (IH H); lia].
Qed.

Lemma max_attained (f : string -> nat) (keys : list string) :
  keys <> [] ->
  exists k, In k keys /\ f k = fold_right Nat.max O (map f keys).
Proof.
  induction keys as [|a keys IH]; [congruence|]. intros _. simpl.
  destruct keys as [|b keys].
  - exists a. simpl. split; [auto | lia].
  - destruct IH as [k [Hk Ek]]; [discriminate|].
    destruct (Nat.le_gt_cases (f a) (fold_right Nat.max O (map f (b :: keys)))) as [L|L].
    + exists k. split; [right; exact Hk | lia].
    + exists a. split; [left; reflexivity | lia].
Qed.

(** The first entry of [mode()] is the smallest of the most frequent values. *)
Lemma mode_head (col : list (option string)) (v : string) (rest : list string) :
  Pandas.mode col = v :: rest -> smallest_most_frequent v col.
Proof.
  unfold Pandas.mode, smallest_most_frequent. cbv zeta.
  set (vals := Pandas.dropna col). set (keys := Pandas.unique vals).
  set (f := fun k => Pandas.count k vals).
  set (mx := fold_right Nat.max O (map f keys)).
  set (ties := filter (fun k => Nat.eqb (Pandas.count k vals) mx) keys).
  intros E.
  assert (Hv : In v ties).
  { apply np_sort_In. rewrite E. left. reflexivity. }
  apply filter_In in Hv. destruct Hv as [Hk Hc]. apply Nat.eqb_eq in Hc.
  assert (Hle : forall w, (Pandas.count w vals <= mx)%nat).
  { intros w. destruct (Nat.eq_dec (Pandas.count w vals) 0) as [Z0|NZ]; [lia|].
    apply (@max_ge f keys w). apply (proj2 (unique_In w vals)), count_pos. lia. }
  assert (Hkv : In v vals) by exact (proj1 (unique_In v vals) Hk).
  split; [exact Hkv|]. split.
  - intros w. rewrite Hc. apply Hle.
  - intros w Hw. apply (@np_sort_head ties v rest E).
    apply filter_In. split.
    + apply (proj2 (unique_In w vals)), count_pos. rewrite Hw.
      apply count_pos. exact Hkv.
    + apply Nat.eqb_eq. congruence.
Qed.

Lemma mode_nonempty (col : list (option string)) :
  Pandas.dropna col <> [] -> exists v rest, Pandas.mode col = v :: rest.
Proof.
  intros Hne. unfold Pandas.mode. cbv zeta.
  set (vals := Pandas.dropna col) in *. set (keys := Pandas.unique vals).
  set (f := fun k => Pandas.count k vals).
  assert (Hk : keys <> []).
  { destruct vals as [|a vals'] eqn:Ev; [congruence|].
    intros Hn. assert (Ha : In a keys) by (apply unique_In; left; reflexivity).
    rewrite Hn in Ha. contradiction. }
  destruct (@max_attained f keys Hk) as [k [Hin Hmax]].
  destruct (Pandas.np_sort _) as [|v rest] eqn:Es; [|exists v, rest; reflexivity].
  exfalso.
  assert (Hs : In k (Pandas.np_sort
                       (filter (fun k => Nat.eqb (Pandas.count k vals)
                                                 (fold_right Nat.max O (map f keys))) keys))).
  { apply np_sort_In, filter_In. split; [exact Hin|]. apply Nat.eqb_eq. exact Hmax. }
  rewrite Es in Hs. contradiction.
Qed.

(** Every row of a filtered frame has the three filter columns present. *)
Lemma filtrar_complete (df : list Row) (fe fed fg : list string) (r : Row) :
  In r (filtrar df fe fed fg) -> complete r = true.
Proof.
  rewrite filtrar_filter, filter_In. unfold passes, complete.
  intros [_ H]. apply andb_true_iff in H. destruct H as [H H3].
  apply andb_true_iff in H. destruct H as [H1 H2].
  apply isin1_true in H1, H2, H3.
  destruct H1 as [? [-> _]], H2 as [? [-> _]], H3 as [? [-> _]]. reflexivity.
Qed.

Lemma dropna_nonempty (f : Row -> option string) (sub : list Row) :
  sub <> [] -> (forall r, In r sub -> present (f r) = true) ->
  Pandas.dropna (map f sub) <> [].
Proof.
  destruct sub as [|r sub]; [congruence|]. intros _ H.
  specialize (H r (or_introl eq_refl)). simpl.
  destruct (f r); [discriminate | discriminate].
Qed.

(** C10. On a non-empty filtered subset, the dominant gender and the most
    common marital status are computed without error, and each is a most
    frequent label of its column that precedes, in the order of strings,
    every label as frequent as it; so when the genders are "Hombre" and
    "Mujer" and they are equally frequent, the dominant gender is "Hombre". *)
Theorem mode_tie_break (df : list Row) (ui : Sidebar) :
  df_filtrado df ui <> [] ->
  exists genero_dom estado,
    Pandas.at0 (Pandas.mode (map Genero (df_filtrado df ui))) = Ok genero_dom /\
    Pandas.at0 (Pandas.mode (map EstadoCivil (df_filtrado df ui))) = Ok estado /\
    smallest_most_frequent genero_dom (map Genero (df_filtrado df ui)) /\
    smallest_most_frequent estado (map EstadoCivil (df_filtrado df ui)) /\
    ((forall w, In w (Pandas.dropna (map Genero (df_filtrado df ui))) ->
                w = "Hombre" \/ w = "Mujer") ->
     Pandas.count "Hombre" (Pandas.dropna (map Genero (df_filtrado df ui)))
     = Pandas.count "Mujer" (Pandas.dropna (map Genero (df_filtrado df ui))) ->
     genero_dom = "Hombre").
Proof.
  intros Hne. set (sub := df_filtrado df ui) in *.
  assert (Hc : forall r, In r sub -> complete r = true).
  { intros r Hr. unfold sub, df_filtrado in Hr. cbv zeta in Hr.
    exact (@filtrar_complete _ _ _ _ r Hr). }
  assert (HG : Pandas.dropna (map Genero sub) <> []).
  { apply dropna_nonempty; [exact Hne|]. intros r Hr. specialize (Hc r Hr).
    unfold complete in Hc. apply andb_true_iff in Hc. apply Hc. }
  assert (HE : Pandas.dropna (map EstadoCivil sub) <> []).
  { apply dropna_nonempty; [exact Hne|]. intros r Hr. specialize (Hc r Hr).
    unfold complete in Hc. apply andb_true_iff in Hc. destruct Hc as [Hc _].
    apply andb_true_iff in Hc. apply Hc. }
  destruct (mode_nonempty _ HG) as [gd [rg Eg]].
  destruct (mode_nonempty _ HE) as [ed [re Ee]].
  exists gd, ed. rewrite Eg, Ee.
  pose proof (@mode_head _ gd rg Eg) as Sg.
  pose proof (@mode_head _ ed re Ee) as Se.
  split; [reflexivity|]. split; [reflexivity|].
  split; [exact Sg|]. split; [exact Se|].
  intros Honly Htie. destruct Sg as [Hin [_ Hmin]].
  destruct (Honly gd Hin) as [->| ->]; [reflexivity|].
  specialize (Hmin "Hombre" Htie). vm_compute in Hmin. discriminate.
Qed.

Lemma mode_tie_break_witness :
  exists genero_dom estado,
    Pandas.at0 (Pandas.mode (map Genero (df_filtrado (loaded gender_table) no_picks)))
    = Ok genero_dom /\
    Pandas.at0 (Pandas.mode (map EstadoCivil (df_filtrado (loaded gender_table) no_picks)))
    = Ok estado /\
    genero_dom = "Hombre".
Proof.
  destruct (@mode_tie_break (loaded gender_table) no_picks)
    as [gd [ed [H1 [H2 [_ [_ H3]]]]]].
  - vm_compute. discriminate.
  - exists gd, ed. split; [exact H1|]. split; [exact H2|].
    apply H3.
    + vm_compute. intuition.
    + vm_compute. reflexivity.
Defined.

(* ------------------------------------------------------------------------- *)
(** * Further properties of the filter and the sidebar *)
(* ------------------------------------------------------------------------- *)

Lemma filter_filter (A : Type) (p q : A -> bool) (l : list A) :
  filter p (filter q l) = filter (fun x => q x && p x) l.
Proof.
  induction l as [|a l IH]; simpl; [reflexivity|].
  destruct (q a); simpl; [destruct (p a)|]; rewrite IH; reflexivity.
Qed.

Lemma isin1_incl (a b : list string) (v : option string) :
  incl a b -> Pandas.isin1 a v = true -> Pandas.isin1 b v = true.
Proof.
  intros Hi H. apply isin1_true in H. destruct H as [x [-> Hx]].
  apply isin1_true. exists x. split; [reflexivity | apply Hi, Hx].
Qed.

Lemma passes_incl (fe fed fg fe' fed' fg' : list string) (r : Row) :
  incl fe fe' -> incl fed fed' -> incl fg fg' ->
  passes fe fed fg r = true -> passes fe' fed' fg' r = true.
Proof.
  unfold passes. intros H1 H2 H3 H.
  apply andb_true_iff in H. destruct H as [H Hc].
  apply andb_true_iff in H. destruct H as [Ha Hb].
  rewrite (isin1_incl _ H1 Ha), (isin1_incl _ H2 Hb), (isin1_incl _ H3 Hc).
  reflexivity.
Qed.

(** X1. Two filters applied one after the other give the same frame in
    either order; and a selection applied after a wider one (each allowed
    list contained in the wider one) gives what it gives applied alone. *)
Theorem filtrar_compose (df : list Row) (fe fed fg fe' fed' fg' : list string) :
  filtrar (filtrar df fe fed fg) fe' fed' fg'
  = filtrar (filtrar df fe' fed' fg') fe fed fg /\
  (incl fe fe' -> incl fed fed' -> incl fg fg' ->
   filtrar (filtrar df fe' fed' fg') fe fed fg = filtrar df fe fed fg).
Proof.
  rewrite !filtrar_filter, !filter_filter. split.
  - apply filter_ext. intros r. apply andb_comm.
  - intros H1 H2 H3. apply filter_ext. intros r.
    destruct (passes fe fed fg r) eqn:E.
    + rewrite (passes_incl r H1 H2 H3 E). reflexivity.
    + apply andb_false_r.
Qed.

Lemma filtrar_compose_witness :
  filtrar (filtrar (loaded gender_table) ["Single"; "Married"] labels ["Hombre"; "Mujer"])
          ["Single"] ["30-39"] ["Mujer"]
  = filtrar (loaded gender_table) ["Single"] ["30-39"] ["Mujer"].
Proof.
  apply (@filtrar_compose (loaded gender_table)
           ["Single"] ["30-39"] ["Mujer"] ["Single"; "Married"] labels ["Hombre"; "Mujer"]).
  - intros x [<-|[]]. simpl. auto.
  - intros x [<-|[]]. vm_compute. auto.
  - intros x [<-|[]]. simpl. auto.
Defined.

(** X2. Whatever is picked in the sidebar, the filtered frame is the same
    filter applied to the frame of the untouched sidebar: a row with a
    missing EstadoCivil, RangoEdad or Genero is in no selection, and no
    selection has more rows than the default one. *)
Theorem picks_narrow_default (df : list Row) (ui : Sidebar) :
  (forall fe fed fg,
      filtrar df fe fed fg = filtrar (df_filtrado df no_picks) fe fed fg) /\
  (forall r, In r (df_filtrado df ui) -> In r (df_filtrado df no_picks)) /\
  (forall r, In r (df_filtrado df ui) -> complete r = true) /\
  (List.length (df_filtrado df ui) <= List.length (df_filtrado df no_picks))%nat.
Proof.
  assert (D : df_filtrado df no_picks = filter complete df)
    by apply filtrar_todo_filter.
  assert (G : forall fe fed fg,
             filtrar df fe fed fg = filtrar (filter complete df) fe fed fg).
  { intros fe fed fg. rewrite !filtrar_filter, filter_filter.
    apply filter_ext_in. intros r Hr.
    destruct (passes fe fed fg r) eqn:E; [|rewrite andb_false_r; reflexivity].
    assert (Hin : In r (filtrar df fe fed fg))
      by (rewrite filtrar_filter; apply filter_In; auto).
    rewrite (filtrar_complete _ _ _ _ _ Hin). reflexivity. }
  rewrite D. split; [exact G|].
  unfold df_filtrado. cbv zeta.
  set (fe := multiselect (w_estado ui) _ _).
  set (fed := multiselect (w_edad ui) _ _).
  set (fg := multiselect (w_genero ui) _ _).
  split; [|split].
  - intros r Hr. rewrite G, filtrar_filter in Hr. apply filter_In in Hr. apply Hr.
  - intros r Hr. exact (filtrar_complete _ _ _ _ _ Hr).
  - rewrite G, filtrar_filter. apply filter_length_le.
Qed.

Lemma options_spec (f : Row -> option string) (df : list Row) :
  NoDup (Pandas.unique (Pandas.dropna (map f df))) /\
  (forall x, In x (Pandas.unique (Pandas.dropna (map f df)))
             <-> exists r, In r df /\ f r = Some x).
Proof.
  split; [apply unique_acc_NoDup|].
  intros x. rewrite unique_In, dropna_In, in_map_iff. split.
  - intros [r [E Hr]]. exists r. auto.
  - intros [r [Hr E]]. exists r. auto.
Qed.

(** X3. Each of the three option lists of the sidebar has no repeated
    entry and holds exactly the non-missing values its column takes in the
    frame. *)
Theorem sidebar_options (df : list Row) :
  (NoDup (estados_civiles df) /\
   forall x, In x (estados_civiles df) <-> exists r, In r df /\ EstadoCivil r = Some x) /\
  (NoDup (rangos_edades df) /\
   forall x, In x (rangos_edades df) <-> exists r, In r df /\ RangoEdad r = Some x) /\
  (NoDup (generos df) /\
   forall x, In x (generos df) <-> exists r, In r df /\ Genero r = Some x).
Proof.
  split; [|split]; apply options_spec.
Qed.

Lemma genero_column_values (t : CsvTable) (g : NumpyRandom.mt19937_state) :
  Forall (fun gn => gn = Some "Hombre" \/ gn = Some "Mujer" \/ gn = None)
         (fst (genero_column t g)).
Proof.
  destruct (has_Gender t) eqn:E.
  - rewrite genero_column_mapped by exact E. apply Forall_map, Forall_forall.
    intros raw _. destruct (Gender raw) as [k|]; [|auto].
    cbn [dict_get]. destruct (String.eqb k "M"); [auto|].
    destruct (String.eqb k "F"); auto.
  - rewrite genero_column_seeded by exact E. apply Forall_map.
    eapply Forall_impl; [|apply (choice_two "Hombre" "Mujer")].
    intros x [->| ->]; auto.
Qed.

(** X4. For a loaded frame the sidebar offers no age bracket other than the
    nine decade labels and no gender other than "Hombre" and "Mujer". *)
Theorem loaded_options (fs : FileSystem) (y : Z) (path : string)
        (g : NumpyRandom.mt19937_state) (df : list Row) :
  fst (cargar_datos fs y path g) = Ok df ->
  incl (rangos_edades df) labels /\
  incl (generos df) ["Hombre"; "Mujer"] /\
  (List.length (rangos_edades df) <= 9)%nat /\
  (List.length (generos df) <= 2)%nat.
Proof.
  intros H.
  assert (I1 : incl (rangos_edades df) labels).
  { intros x Hx. apply options_spec in Hx. destruct Hx as [r [Hr E]].
    destruct (@cargar_datos_row fs y path g df r H Hr) as [fl [raw [gen ->]]].
    exact (@cut1_in_labels _ _ E). }
  assert (I2 : incl (generos df) ["Hombre"; "Mujer"]).
  { intros x Hx. apply options_spec in Hx. destruct Hx as [r [Hr E]].
    destruct (@cargar_datos_inv fs y path g df H) as [t [_ ->]].
    pose proof (@Forall_derive_combine
                  (fun r => Genero r = Some "Hombre" \/ Genero r = Some "Mujer"
                            \/ Genero r = None)
                  (fun gn => gn = Some "Hombre" \/ gn = Some "Mujer" \/ gn = None)
                  (spend_is_float t) y (csv_rows t) (fst (genero_column t g))
                  (fun raw gn Hq => Hq) (genero_column_values t g)) as F.
    rewrite Forall_forall in F. specialize (F r Hr). rewrite E in F.
    simpl. destruct F as [F|[F|F]]; [left | right; left | discriminate];
      congruence. }
  split; [exact I1|]. split; [exact I2|]. split.
  - change 9%nat with (List.length labels).
    apply NoDup_incl_length; [apply options_spec | exact I1].
  - change 2%nat with (List.length ["Hombre"; "Mujer"]).
    apply NoDup_incl_length; [apply options_spec | exact I2].
Qed.

Lemma loaded_options_witness :
  incl (rangos_edades (loaded gender_table)) labels /\
  incl (generos (loaded gender_table)) ["Hombre"; "Mujer"].
Proof.
  pose proof (@loaded_options (sample_fs gender_table) 2024 "marketing_campaign.csv" g0
                              (loaded gender_table) eq_refl) as P.
  destruct P as [P1 [P2 _]]. split; assumption.
Defined.

(* ------------------------------------------------------------------------- *)
(** * Spend totals and the share of the total *)
(* ------------------------------------------------------------------------- *)









Lemma df_filtrado_length (df : list Row) (ui : Sidebar) :
  (List.length (df_filtrado df ui) <= List.length df)%nat.
Proof.
  unfold df_filtrado. cbv zeta. rewrite filtrar_filter. apply filter_length_le.
Qed.

(** X6. On a frame with at least one row the division behind the
    "% del total" figure succeeds, and the figure lies between 0 and 100:
    the filtered frame never has more rows than the frame. *)
Theorem share_of_total (df : list Row) (ui : Sidebar) :
  df <> [] ->
  0 <= len (df_filtrado df ui) <= len df /\
  exists ratio,
    truediv (len (df_filtrado df ui)) (len df) = Ok ratio /\
    Qle 0 (Qmult ratio (Qmake 100 1)) /\
    Qle (Qmult ratio (Qmake 100 1)) (Qmake 100 1).
Proof.
  intros Hne. pose proof (df_filtrado_length df ui) as L.
  assert (P : 0 < len df).
  { destruct df; [congruence|]. unfold len. simpl List.length. lia. }
  assert (B : 0 <= len (df_filtrado df ui) <= len df) by (unfold len; lia).
  split; [exact B|].
  unfold truediv. replace (len df =? 0) with false by (symmetry; apply Z.eqb_neq; lia).
  eexists. split; [reflexivity|].
  unfold Qle, Qmult. cbn [Qnum Qden]. rewrite !Pos2Z.inj_mul, Z2Pos.id by lia.
  split; nia.
Qed.

Lemma share_of_total_witness :
  exists ratio,
    truediv (len (df_filtrado (loaded gender_table) no_picks)) (len (loaded gender_table))
    = Ok ratio /\
    Qle (Qmult ratio (Qmake 100 1)) (Qmake 100 1).
Proof.
  destruct (@share_of_total (loaded gender_table) no_picks) as [_ [q [H1 [_ H2]]]].
  - vm_compute. discriminate.
  - exists q. split; assumption.
Defined.

(* ------------------------------------------------------------------------- *)
(** * Counting by key *)
(* ------------------------------------------------------------------------- *)

Section Partition.
Variables A B : Type.
Variable sel : A -> B -> bool.
Variable key : B -> A.
Hypothesis sel_spec : forall k x, sel k x = true <-> key x = k.

Lemma indicator_sum (keys : list A) (x : B) :
  NoDup keys -> In (key x) keys ->
  sum_nat (map (fun k => if sel k x then 1%nat else O) keys) = 1%nat.
Proof.
  induction 1 as [|k keys Hk Hnd IH]; simpl; [tauto|].
  assert (Z0 : forall ks, ~ In (key x) ks ->
                          sum_nat (map (fun k => if sel k x then 1%nat else O) ks) = O).
  { induction ks as [|k' ks IHk]; simpl; [reflexivity|]. intros Hn.
    destruct (sel k' x) eqn:E.
    - apply sel_spec in E. exfalso. apply Hn. left. symmetry. exact E.
    - apply IHk. intros Hc. apply Hn. right. exact Hc. }
  intros [E|Hin].
  - subst k. rewrite (proj2 (sel_spec (key x) x) eq_refl), (Z0 keys Hk). reflexivity.
  - destruct (sel k x) eqn:E.
    + apply sel_spec in E. subst k. contradiction.
    + simpl. apply IH. exact Hin.
Qed.

Lemma sum_nat_add (f h : A -> nat) (keys : list A) :
  sum_nat (map (fun k => (f k + h k)%nat) keys)
  = (sum_nat (map f keys) + sum_nat (map h keys))%nat.
Proof. induction keys as [|k keys IH]; simpl; [reflexivity | rewrite IH; lia]. Qed.

(** Counting the entries of [l] key by key, over distinct keys that cover
    [l], counts every entry once. *)
Lemma partition_sum (keys : list A) (l : list B) :
  NoDup keys -> (forall x, In x l -> In (key x) keys) ->
  sum_nat (map (fun k => List.length (filter (sel k) l)) keys) = List.length l.
Proof.
  intros Hnd. induction l as [|x l IH]; intros Hc.
  - simpl. clear. induction keys as [|k keys IHk]; simpl; [reflexivity | exact IHk].
  - rewrite (map_ext _ (fun k => ((if sel k x then 1 else 0)
                                  + List.length (filter (sel k) l))%nat)).
    + assert (H1 : In (key x) keys) by (apply Hc; left; reflexivity).
      assert (H2 : forall y, In y l -> In (key y) keys)
        by (intros y Hy; apply Hc; right; exact Hy).
      rewrite sum_nat_add, (indicator_sum x Hnd H1), (IH H2). reflexivity.
    + intros k. simpl. destruct (sel k x); reflexivity.
Qed.
End Partition.

Lemma sum_of_nat (A : Type) (f : A -> nat) (l : list A) :
  Pandas.sum (map (fun a => Z.of_nat (f a)) l) = Z.of_nat (sum_nat (map f l)).
Proof. induction l as [|a l IH]; simpl; [reflexivity | rewrite IH; lia]. Qed.

Lemma sum_nat_perm (l l' : list nat) : Permutation l l' -> sum_nat l = sum_nat l'.
Proof. induction 1; simpl; lia. Qed.

(* ------------------------------------------------------------------------- *)
(** * The gender pie *)
(* ------------------------------------------------------------------------- *)

Lemma insert_count_perm (e : string * nat) (l : list (string * nat)) :
  Permutation (Pandas.insert_count e l) (e :: l).
Proof.
  induction l as [|h t IH]; simpl; [apply Permutation_refl|].
  destruct (Nat.ltb (snd e) (snd h)); [|apply Permutation_refl].
  apply perm_trans with (h :: e :: t); [apply perm_skip, IH | apply perm_swap].
Qed.

Lemma sort_counts_perm (l : list (string * nat)) :
  Permutation (fold_right Pandas.insert_count [] l) l.
Proof.
  induction l as [|e l IH]; simpl; [apply perm_nil|].
  apply perm_trans with (e :: fold_right Pandas.insert_count [] l);
    [apply insert_count_perm | apply perm_skip, IH].
Qed.

Lemma insert_count_sorted (e : string * nat) (l : list (string * nat)) :
  StronglySorted (fun a b => (snd b <= snd a)%nat) l ->
  StronglySorted (fun a b => (snd b <= snd a)%nat) (Pandas.insert_count e l).
Proof.
  induction 1 as [|h t Hs IH Hf]; simpl; [repeat constructor|].
  destruct (Nat.ltb_spec (snd e) (snd h)) as [L|L].
  - constructor; [exact IH|]. apply Forall_forall. intros x Hx.
    apply (Permutation_in _ (insert_count_perm e t)) in Hx.
    destruct Hx as [<-|Hx]; [lia|]. rewrite Forall_forall in Hf. apply Hf, Hx.
  - constructor; [constructor; assumption|].
    constructor; [exact L|]. rewrite Forall_forall in *. intros x Hx.
    specialize (Hf x Hx). lia.
Qed.

Lemma sort_counts_sorted (l : list (string * nat)) :
  StronglySorted (fun a b => (snd b <= snd a)%nat) (fold_right Pandas.insert_count [] l).
Proof.
  induction l as [|e l IH]; simpl; [constructor | apply insert_count_sorted, IH].
Qed.

Lemma dropna_length_present (f : Row -> option string) (sub : list Row) :
  (forall r, In r sub -> present (f r) = true) ->
  List.length (Pandas.dropna (map f sub)) = List.length sub.
Proof.
  induction sub as [|r sub IH]; intros H; simpl; [reflexivity|].
  pose proof (H r (or_introl eq_refl)) as Hr.
  destruct (f r); [|discriminate]. simpl. rewrite IH; [reflexivity|].
  intros r' Hr'. apply H. right. exact Hr'.
Qed.

Lemma count_sel (k x : string) : String.eqb k x = true <-> x = k.
Proof. rewrite String.eqb_eq. split; congruence. Qed.

(** X7. The counts behind the gender pie: each label of the column appears
    once, with the number of rows that carry it, most frequent first; the
    counts of a filtered frame add up to its number of rows. *)
Theorem genero_counts_total (df : list Row) (ui : Sidebar) :
  let sub := df_filtrado df ui in
  let genero_counts := Pandas.value_counts (map Genero sub) in
  NoDup (map fst genero_counts) /\
  (forall k n, In (k, n) genero_counts <->
               (exists r, In r sub /\ Genero r = Some k) /\
               n = List.length (with_genero k sub)) /\
  StronglySorted (fun a b => (snd b <= snd a)%nat) genero_counts /\
  sum_nat (map snd genero_counts) = List.length sub.
Proof.
  intros sub genero_counts. unfold genero_counts, Pandas.value_counts. cbv zeta.
  set (vals := Pandas.dropna (map Genero sub)).
  set (keys := Pandas.unique vals).
  set (pairs := map (fun k => (k, Pandas.count k vals)) keys).
  pose proof (sort_counts_perm pairs) as P.
  assert (Hkeys : NoDup keys) by apply unique_acc_NoDup.
  assert (Hfst : map fst pairs = keys).
  { unfold pairs. rewrite map_map. apply map_id. }
  assert (Hcount : forall k, Pandas.count k vals = List.length (with_genero k sub)).
  { intros k. unfold Pandas.count, vals, with_genero. clear.
    induction sub as [|r sub IH]; simpl; [reflexivity|].
    destruct (Genero r) as [x|]; simpl; [|exact IH].
    unfold Pandas.mem. simpl. rewrite orb_false_r, (String.eqb_sym x k).
    destruct (String.eqb k x); simpl; rewrite IH; reflexivity. }
  split; [|split; [|split]].
  - apply (Permutation_NoDup (l := map fst pairs)).
    + apply Permutation_map, Permutation_sym, P.
    + rewrite Hfst. exact Hkeys.
  - intros k n. split.
    + intros H. apply (Permutation_in _ P) in H. unfold pairs in H.
      apply in_map_iff in H. destruct H as [k' [E Hk]]. injection E as -> <-.
      split; [|apply Hcount].
      apply (proj1 (unique_In k vals)), dropna_In, in_map_iff in Hk.
      destruct Hk as [r [E Hr]]. exists r. auto.
    + intros [[r [Hr E]] ->]. apply (Permutation_in _ (Permutation_sym P)).
      unfold pairs. apply in_map_iff. exists k. split.
      * rewrite Hcount. reflexivity.
      * apply (proj2 (unique_In k vals)), dropna_In, in_map_iff. exists r. auto.
  - apply sort_counts_sorted.
  - rewrite (sum_nat_perm (Permutation_map snd P)). unfold pairs.
    rewrite map_map. cbn [snd]. unfold Pandas.count.
    rewrite (@partition_sum string string String.eqb (fun x => x) count_sel keys vals Hkeys).
    + unfold vals. apply dropna_length_present. intros r Hr.
      unfold sub, df_filtrado in Hr. cbv zeta in Hr.
      pose proof (filtrar_complete _ _ _ _ _ Hr) as C. unfold complete in C.
      apply andb_true_iff in C. apply C.
    + intros x Hx. apply (proj2 (unique_In x vals)). exact Hx.
Qed.

(* ------------------------------------------------------------------------- *)
(** * Sorting integers; the population pyramid *)
(* ------------------------------------------------------------------------- *)

Lemma insert_Z_perm (v : Z) (l : list Z) : Permutation (Pandas.insert_Z v l) (v :: l).
Proof.
  induction l as [|h t IH]; simpl; [apply Permutation_refl|].
  destruct (v <=? h); [apply Permutation_refl|].
  apply perm_trans with (h :: v :: t); [apply perm_skip, IH | apply perm_swap].
Qed.

Lemma sort_Z_perm (l : list Z) : Permutation (Pandas.sort_Z l) l.
Proof.
  induction l as [|a l IH]; simpl; [apply perm_nil|].
  apply perm_trans with (a :: Pandas.sort_Z l);
    [apply insert_Z_perm | apply perm_skip, IH].
Qed.

Lemma insert_Z_sorted (v : Z) (l : list Z) :
  StronglySorted Z.le l -> StronglySorted Z.le (Pandas.insert_Z v l).
Proof.
  induction 1 as [|h t Hs IH Hf]; simpl; [repeat constructor|].
  destruct (Z.leb_spec v h) as [L|L].
  - constructor; [constructor; assumption|].
    constructor; [exact L|]. rewrite Forall_forall in *. intros x Hx.
    specialize (Hf x Hx). lia.
  - constructor; [exact IH|]. apply Forall_forall. intros x Hx.
    apply (Permutation_in _ (insert_Z_perm v t)) in Hx.
    destruct Hx as [<-|Hx]; [lia|]. rewrite Forall_forall in Hf. apply Hf, Hx.
Qed.

Lemma sort_Z_sorted (l : list Z) : StronglySorted Z.le (Pandas.sort_Z l).
Proof.
  induction l as [|a l IH]; simpl; [constructor | apply insert_Z_sorted, IH].
Qed.

Lemma sort_Z_In (x : Z) (l : list Z) : In x (Pandas.sort_Z l) <-> In x l.
Proof.
  split; apply Permutation_in; [|apply Permutation_sym]; apply sort_Z_perm.
Qed.

Lemma dedup_In (x : Z) (l : list Z) : In x (dedup l) <-> In x l.
Proof.
  induction l as [|a t IH]; [simpl; tauto|].
  destruct t as [|b t'].
  - simpl. tauto.
  - change (dedup (a :: b :: t'))
      with (if a =? b then dedup (b :: t') else a :: dedup (b :: t')).
    destruct (Z.eqb_spec a b) as [->|N].
    + rewrite IH. simpl. tauto.
    + simpl In at 1. rewrite IH. simpl. tauto.
Qed.

Lemma dedup_strict (l : list Z) :
  StronglySorted Z.le l -> StronglySorted Z.lt (dedup l).
Proof.
  induction 1 as [|a t Hs IH Hf]; [constructor|].
  destruct t as [|b t'].
  - simpl. repeat constructor.
  - change (dedup (a :: b :: t'))
      with (if a =? b then dedup (b :: t') else a :: dedup (b :: t')).
    destruct (Z.eqb_spec a b) as [->|N]; [exact IH|].
    constructor; [exact IH|]. apply Forall_forall. intros x Hx.
    apply (proj1 (dedup_In x (b :: t'))) in Hx. inversion Hs as [|? ? Hs' Hb]; subst.
    inversion Hf as [|? ? Hab Hf']; subst.
    destruct Hx as [<-|Hx]; [lia|].
    rewrite Forall_forall in Hb. specialize (Hb x Hx). lia.
Qed.

Lemma strict_NoDup (l : list Z) : StronglySorted Z.lt l -> NoDup l.
Proof.
  induction 1 as [|a t Hs IH Hf]; constructor; [|exact IH].
  intros Hin. rewrite Forall_forall in Hf. specialize (Hf a Hin). lia.
Qed.

Lemma pop_index_In (a : Z) (sub : list Row) :
  In a (pop_index sub) <-> exists r, In r sub /\ present (Genero r) = true /\ Edad r = a.
Proof.
  unfold pop_index. rewrite dedup_In, sort_Z_In, in_map_iff. split.
  - intros [r [E Hr]]. apply filter_In in Hr. destruct Hr as [Hr Hg].
    exists r. split; [exact Hr|]. split; [|exact E].
    destruct (Genero r); [reflexivity | discriminate].
  - intros [r [Hr [Hg E]]]. exists r. split; [exact E|].
    apply filter_In. split; [exact Hr|].
    destruct (Genero r); [reflexivity | discriminate].
Qed.

Lemma edad_sel (a : Z) (r : Row) : (Edad r =? a) = true <-> Edad r = a.
Proof. apply Z.eqb_eq. Qed.

Lemma pop_column_sum (g : string) (sub : list Row) :
  Pandas.sum (pop_column g sub) = len (with_genero g sub).
Proof.
  unfold pop_column, len.
  rewrite (map_ext _ (fun a => Z.of_nat
                                 (List.length (filter (fun r => Edad r =? a)
                                                      (with_genero g sub))))).
  - rewrite sum_of_nat. f_equal.
    apply (@partition_sum Z Row (fun a r => Edad r =? a) Edad edad_sel).
    + apply strict_NoDup, dedup_strict, sort_Z_sorted.
    + intros r Hr. unfold with_genero in Hr. apply filter_In in Hr.
      destruct Hr as [Hr Hg]. apply pop_index_In. exists r.
      split; [exact Hr|]. split; [|reflexivity].
      apply isin1_single in Hg. rewrite Hg. reflexivity.
  - intros a. unfold len, with_genero. rewrite filter_filter.
    f_equal. f_equal. apply filter_ext. intros r. apply andb_comm.
Qed.

(** X8. The population pyramid: the ages on its axis are those of the rows
    that have a gender, each once, in ascending order; the two bar series
    have one entry per age, the "Hombre" bars never positive and the "Mujer"
    bars never negative; and the bars of a gender add up to the number of
    rows of that gender (negated for "Hombre"). *)
Theorem pyramid_bars (sub : list Row) :
  let hombres := map Z.opp (pop_column "Hombre" sub) in
  let mujeres := pop_column "Mujer" sub in
  StronglySorted Z.lt (pop_index sub) /\
  (forall a, In a (pop_index sub) <->
             exists r, In r sub /\ present (Genero r) = true /\ Edad r = a) /\
  List.length hombres = List.length (pop_index sub) /\
  List.length mujeres = List.length (pop_index sub) /\
  Forall (fun x => x <= 0) hombres /\
  Forall (fun x => 0 <= x) mujeres /\
  Pandas.sum hombres = - len (with_genero "Hombre" sub) /\
  Pandas.sum mujeres = len (with_genero "Mujer" sub).
Proof.
  intros hombres mujeres. unfold hombres, mujeres.
  split; [apply dedup_strict, sort_Z_sorted|].
  split; [intros a; apply pop_index_In|].
  split; [unfold pop_column; rewrite !length_map; reflexivity|].
  split; [unfold pop_column; rewrite !length_map; reflexivity|].
  split; [|split; [|split]].
  - unfold pop_column. rewrite map_map. apply Forall_map, Forall_forall.
    intros a _. unfold len. lia.
  - unfold pop_column. apply Forall_map, Forall_forall.
    intros a _. unfold len. lia.
  - rewrite <- pop_column_sum. generalize (pop_column "Hombre" sub).
    intros l. induction l as [|x l IH]; simpl; [reflexivity | rewrite IH; lia].
  - apply pop_column_sum.
Qed.

(* ------------------------------------------------------------------------- *)
(** * The insights: top bracket and target age *)
(* ------------------------------------------------------------------------- *)

Lemma idxmax_from_spec (s : list (option Q)) :
  forall (i : nat) (best : option (nat * Q)) (k : nat) (q : Q),
    Pandas.idxmax_from i best s = Some (k, q) ->
    (forall j q', nth_error s j = Some (Some q') -> Qle q' q) /\
    (best = Some (k, q) \/
     ((i <= k)%nat /\
      nth_error s (k - i) = Some (Some q) /\
      (forall j q', (j < k - i)%nat -> nth_error s j = Some (Some q') -> Qlt q' q) /\
      (forall kb b, best = Some (kb, b) -> Qlt b q))).
Proof.
  induction s as [|[x|] t IH]; intros i best k q H.
  - simpl in H. split; [intros [|j] q' E; discriminate | left; exact H].
  - assert (Step : forall best',
               Pandas.idxmax_from (S i) best' t = Some (k, q) ->
               ((best' = Some (i, x) /\ forall kb b, best = Some (kb, b) -> Qlt b x) \/
                (best' = best /\ exists kb b, best = Some (kb, b) /\ Qle x b)) ->
               (forall j q', nth_error (Some x :: t) j = Some (Some q') -> Qle q' q) /\
               (best = Some (k, q) \/
                ((i <= k)%nat /\
                 nth_error (Some x :: t) (k - i) = Some (Some q) /\
                 (forall j q', (j < k - i)%nat ->
                               nth_error (Some x :: t) j = Some (Some q') -> Qlt q' q) /\
                 (forall kb b, best = Some (kb, b) -> Qlt b q)))).
    { intros best' Hr Hb. destruct (IH (S i) best' k q Hr) as [Hall Hcase].
      destruct Hcase as [Eb|[Hik [Hn [Hbefore Hbq]]]].
      - (* the running best is the result *)
        destruct Hb as [[Eb' Hlt]|[Eb' [kb [b [Ebest Hxb]]]]].
        + rewrite Eb' in Eb. injection Eb as <- <-.
          split.
          * intros [|j] q' E; [injection E as <-; apply Qle_refl | exact (Hall j q' E)].
          * right. split; [lia|]. rewrite Nat.sub_diag. split; [reflexivity|].
            split; [intros j q' Hj; lia | exact Hlt].
        + rewrite Eb' in Eb. split.
          * intros [|j] q' E; [|exact (Hall j q' E)].
            injection E as <-. rewrite Ebest in Eb. injection Eb as _ <-. exact Hxb.
          * left. exact Eb.
      - (* a later entry is the result *)
        assert (Hxq : Qlt x q).
        { destruct Hb as [[Eb' Hlt]|[Eb' [kb [b [Ebest Hxb]]]]].
          - exact (Hbq i x Eb').
          - apply Qle_lt_trans with b; [exact Hxb|]. apply (Hbq kb b). congruence. }
        split.
        + intros [|j] q' E; [|exact (Hall j q' E)].
          injection E as <-. apply Qlt_le_weak, Hxq.
        + right. split; [lia|].
          replace (k - i)%nat with (S (k - S i)) by lia.
          split; [exact Hn|]. split.
          * intros [|j] q' Hj E; [injection E as <-; exact Hxq|].
            apply (Hbefore j q'); [lia | exact E].
          * intros kb b Ebest.
            destruct Hb as [[Eb' Hlt]|[Eb' _]].
            -- apply Qlt_trans with x; [exact (Hlt kb b Ebest) | exact Hxq].
            -- apply (Hbq kb b). congruence. }
    simpl in H. destruct best as [[kb b]|].
    + destruct (Qlt_le_dec b x) as [L|L].
      * apply (Step _ H). left. split; [reflexivity|].
        intros kb' b' E. injection E as <- <-. exact L.
      * apply (Step _ H). right. split; [reflexivity|].
        exists kb, b. split; [reflexivity | exact L].
    + apply (Step _ H). left. split; [reflexivity|]. intros kb b E. discriminate.
  - simpl in H. destruct (IH (S i) best k q H) as [Hall Hcase]. split.
    + intros [|j] q' E; [discriminate | exact (Hall j q' E)].
    + destruct Hcase as [Eb|[Hik [Hn [Hbefore Hbq]]]]; [left; exact Eb|].
      right. split; [lia|].
      replace (k - i)%nat with (S (k - S i)) by lia.
      split; [exact Hn|]. split; [|exact Hbq].
      intros [|j] q' Hj E; [discriminate|]. apply (Hbefore j q'); [lia | exact E].
Qed.

Lemma idxmax_ok (s : list (option Q)) (i : nat) :
  Pandas.idxmax s = Ok i ->
  exists q, nth_error s i = Some (Some q) /\
            (forall j q', nth_error s j = Some (Some q') -> Qle q' q) /\
            (forall j q', (j < i)%nat -> nth_error s j = Some (Some q') -> Qlt q' q).
Proof.
  unfold Pandas.idxmax. intros H.
  destruct (Pandas.idxmax_from 0 None s) as [[k q]|] eqn:E; [|discriminate].
  injection H as ->.
  destruct (idxmax_from_spec s 0 None E) as [Hall [Hb|[_ [Hn [Hbefore _]]]]];
    [discriminate|].
  rewrite Nat.sub_0_r in *. exists q. auto.
Qed.

Lemma idxmax_from_some (s : list (option Q)) :
  forall i best,
    (best <> None \/ exists q, In (Some q) s) ->
    Pandas.idxmax_from i best s <> None.
Proof.
  induction s as [|[x|] t IH]; intros i best H; simpl.
  - destruct H as [H|[q []]]. exact H.
  - destruct best as [[kb b]|]; [destruct (Qlt_le_dec b x)|];
      apply IH; left; discriminate.
  - apply IH. destruct H as [H|[q [H|H]]]; [left; exact H | discriminate |].
    right. exists q. exact H.
Qed.

Lemma idxmax_defined (s : list (option Q)) (q : Q) :
  In (Some q) s -> exists i, Pandas.idxmax s = Ok i.
Proof.
  intros H. unfold Pandas.idxmax.
  pose proof (@idxmax_from_some s 0%nat None (or_intror (ex_intro _ q H))) as N.
  destruct (Pandas.idxmax_from 0 None s) as [[k b]|]; [|congruence].
  exists k. reflexivity.
Qed.

(** X9. The bracket named in the top-spend insight has a mean that is not
    NaN and that no listed bracket exceeds; among brackets with that same
    largest mean it is the first in ascending order (every bracket listed
    before it has a strictly smaller mean or none). *)
Theorem gasto_top_is_max (observed : bool) (sub : list Row) (i : nat) :
  Pandas.idxmax (map snd (gasto_por_rango observed sub)) = Ok i ->
  exists c q,
    nth i (gasto_por_rango observed sub) ("", None) = (c, Some q) /\
    (forall c' q', In (c', Some q') (gasto_por_rango observed sub) -> Qle q' q) /\
    (forall j c' q', (j < i)%nat ->
                     nth_error (gasto_por_rango observed sub) j = Some (c', Some q') ->
                     Qlt q' q).
Proof.
  intros H. destruct (idxmax_ok _ H) as [q [Hn [Hall Hbefore]]].
  rewrite nth_error_map in Hn.
  destruct (nth_error (gasto_por_rango observed sub) i) as [[c m]|] eqn:E;
    [|discriminate].
  cbn in Hn. injection Hn as ->.
  exists c, q. split; [apply nth_error_nth; exact E|]. split.
  - intros c' q' Hin. apply In_nth_error in Hin. destruct Hin as [j Hj].
    apply (Hall j q'). rewrite nth_error_map, Hj. reflexivity.
  - intros j c' q' Hlt Hj. apply (Hbefore j q' Hlt).
    rewrite nth_error_map, Hj. reflexivity.
Qed.

Lemma gasto_top_is_max_witness :
  exists c q,
    nth 2 (gasto_por_rango false (loaded gender_table)) ("", None) = (c, Some q) /\
    (forall c' q', In (c', Some q') (gasto_por_rango false (loaded gender_table)) ->
                   Qle q' q).
Proof.
  destruct (@gasto_top_is_max false (loaded gender_table) 2%nat) as [c [q [H1 [H2 _]]]].
  - vm_compute. reflexivity.
  - exists c, q. split; assumption.
Defined.

Lemma median_cases (s : list Z) :
  s <> [] ->
  exists a b, In a s /\ In b s /\
              (Pandas.median s = Some (Qmake (a + b) 2)
               \/ Pandas.median s = Some (Qmake b 1)).
Proof.
  intros Hne. unfold Pandas.median. cbv zeta.
  pose proof (Permutation_length (sort_Z_perm s)) as L.
  destruct (List.length (Pandas.sort_Z s)) as [|n] eqn:En.
  - destruct s; [congruence | discriminate].
  - set (m := S n) in *.
    assert (H1 : (Nat.div m 2 < List.length (Pandas.sort_Z s))%nat)
      by (rewrite En; apply Nat.div_lt; unfold m; lia).
    assert (H0 : (Nat.div m 2 - 1 < List.length (Pandas.sort_Z s))%nat) by lia.
    exists (nth (Nat.div m 2 - 1) (Pandas.sort_Z s) 0),
           (nth (Nat.div m 2) (Pandas.sort_Z s) 0).
    split; [apply sort_Z_In, nth_In, H0|]. split; [apply sort_Z_In, nth_In, H1|].
    destruct (Nat.even m); [left | right]; reflexivity.
Qed.

Lemma median_int_bounds (lo hi : Z) (s : list Z) :
  s <> [] -> 0 <= lo -> Forall (fun x => lo <= x <= hi) s ->
  exists z, py_int (Pandas.median s) = Ok z /\ lo <= z <= hi.
Proof.
  intros Hne Hlo F. destruct (median_cases Hne) as [a [b [Ha [Hb [E|E]]]]];
    rewrite Forall_forall in F; pose proof (F a Ha); pose proof (F b Hb);
    rewrite E; cbn [py_int Qnum Qden]; eexists; (split; [reflexivity|]).
  - rewrite Z.quot_div_nonneg by lia. Z.div_mod_to_equations. lia.
  - rewrite Z.quot_1_r. lia.
Qed.

(** X10. For a loaded frame and a selection that leaves at least one row,
    the target age of the insight (the median age, truncated) is computed
    without error and lies between 10 and 99: every selected row has an age
    bracket, hence an age in that range. *)
Theorem target_age_range (fs : FileSystem) (y : Z) (path : string)
        (g : NumpyRandom.mt19937_state) (df : list Row) (ui : Sidebar) :
  fst (cargar_datos fs y path g) = Ok df ->
  df_filtrado df ui <> [] ->
  Forall (fun r => 10 <= Edad r <= 99) (df_filtrado df ui) /\
  exists pub,
    py_int (Pandas.median (map Edad (df_filtrado df ui))) = Ok pub /\
    10 <= pub <= 99.
Proof.
  intros H Hne.
  assert (F : Forall (fun r => 10 <= Edad r <= 99) (df_filtrado df ui)).
  { apply Forall_forall. intros r Hr.
    assert (C : complete r = true)
      by (unfold df_filtrado in Hr; cbv zeta in Hr;
          exact (filtrar_complete _ _ _ _ _ Hr)).
    assert (Hdf : In r df).
    { unfold df_filtrado in Hr. cbv zeta in Hr. rewrite filtrar_filter in Hr.
      apply filter_In in Hr. apply Hr. }
    destruct (@edad_int64 fs y path g df r H Hdf) as [_ Er].
    unfold complete in C.
    apply andb_true_iff in C. destruct C as [C _].
    apply andb_true_iff in C. destruct C as [_ C].
    destruct (cut1_spec (Edad r)) as [S1 _]. rewrite <- Er in S1.
    assert (N : RangoEdad r <> None)
      by (destruct (RangoEdad r); [discriminate | discriminate]).
    apply S1 in N. lia. }
  split; [exact F|].
  apply median_int_bounds.
  - intros E. apply map_eq_nil in E. contradiction.
  - lia.
  - apply Forall_map. exact F.
Qed.

Lemma target_age_range_witness :
  exists pub,
    py_int (Pandas.median (map Edad (df_filtrado (loaded gender_table) no_picks))) = Ok pub /\
    10 <= pub <= 99.
Proof.
  refine (proj2 (@target_age_range (sample_fs gender_table) 2024 "marketing_campaign.csv"
                                   g0 (loaded gender_table) no_picks eq_refl _)).
  vm_compute. discriminate.
Defined.

(* ------------------------------------------------------------------------- *)
(** * A run on a non-empty selection *)
(* ------------------------------------------------------------------------- *)

Lemma gasto_por_rango_has_mean (observed : bool) (sub : list Row) (c : string) :
  categorical sub -> occurs c sub ->
  exists q, In (c, Some q) (gasto_por_rango observed sub).
Proof.
  intros Hcat Hc.
  assert (Hl : In c labels).
  { unfold occurs in Hc. apply in_map_iff in Hc. destruct Hc as [r [E Hr]].
    unfold categorical in Hcat. rewrite Forall_forall in Hcat. exact (Hcat r Hr c E). }
  assert (Hg : Pandas.empty (Pandas.group RangoEdad sub c) = false).
  { destruct (Pandas.empty (Pandas.group RangoEdad sub c)) eqn:Em; [|reflexivity].
    apply group_empty_iff in Em. contradiction. }
  destruct (Pandas.mean (map GastoTotal (Pandas.group RangoEdad sub c))) as [q|] eqn:E.
  - exists q. unfold gasto_por_rango, Pandas.groupby_mean. apply in_map_iff.
    exists c. split; [rewrite E; reflexivity|].
    destruct observed; [|exact Hl]. apply filter_In. split; [exact Hl|].
    rewrite Hg. reflexivity.
  - apply mean_None, map_eq_nil in E. rewrite E in Hg. discriminate.
Qed.

Lemma mean_some (s : list Z) : s <> [] -> exists q, Pandas.mean s = Some q.
Proof. destruct s; [congruence|]. intros _. eexists. reflexivity. Qed.

(** X11. For a frame whose brackets are categories (every loaded frame) and
    a selection that leaves at least one row, the script raises nothing and
    runs to its end: it shows the four metrics with means that are not NaN,
    the five charts, and the insight, in this order. *)
Theorem dashboard_completes (observed : bool) (df : list Row) (ui : Sidebar) :
  categorical df ->
  df_filtrado df ui <> [] ->
  let sub := df_filtrado df ui in
  exists ratio gasto_prom edad_prom genero_dom i pub estado,
    truediv (len sub) (len df) = Ok ratio /\
    Pandas.mean (map GastoTotal sub) = Some gasto_prom /\
    Pandas.mean (map Edad sub) = Some edad_prom /\
    Pandas.at0 (Pandas.mode (map Genero sub)) = Ok genero_dom /\
    Pandas.idxmax (map snd (gasto_por_rango observed sub)) = Ok i /\
    py_int (Pandas.median (map Edad sub)) = Ok pub /\
    Pandas.at0 (Pandas.mode (map EstadoCivil sub)) = Ok estado /\
    run (dashboard observed df ui)
    = ([st_metric ClientesSegmentados (VInt (len sub))
                  (Some (VFloat (Some (Qmult ratio (Qmake 100 1)))));
        st_metric GastoPromedio (VFloat (Some gasto_prom)) None;
        st_metric EdadPromedio (VFloat (Some edad_prom)) None;
        st_metric GeneroDominante (VStr genero_dom)
                  (Some (VInt (Z.of_nat (Pandas.count genero_dom
                                                      (Pandas.dropna (map Genero sub))))));
        st_plotly_chart (Histogram (map Edad sub) 25);
        st_plotly_chart (BoxPlot (map (fun r => (EstadoCivil r, Edad r)) sub));
        st_plotly_chart (BarChart (gasto_por_rango observed sub));
        st_plotly_chart (Pyramid (pop_index sub)
                                 (map Z.opp (pop_column "Hombre" sub))
                                 (pop_column "Mujer" sub));
        st_plotly_chart (Pie (Pandas.value_counts (map Genero sub)));
        st_subheader;
        st_markdown pub (nth i (gasto_por_rango observed sub) ("", None)) estado],
       None).
Proof.
  intros Hcat Hne. cbv zeta.
  assert (Hlen : (List.length (df_filtrado df ui) <= List.length df)%nat)
    by apply df_filtrado_length.
  assert (Hc : forall r, In r (df_filtrado df ui) -> complete r = true).
  { intros r Hr. unfold df_filtrado in Hr. cbv zeta in Hr.
    exact (filtrar_complete _ _ _ _ _ Hr). }
  assert (Hsubcat : categorical (df_filtrado df ui)).
  { unfold df_filtrado. cbv zeta. apply categorical_filtrar, Hcat. }
  unfold dashboard. cbv zeta.
  remember (df_filtrado df ui) as sub eqn:Esub.
  (* the share *)
  assert (Hdf : (len df =? 0) = false).
  { apply Z.eqb_neq. destruct sub; [congruence|]. unfold len. simpl in Hlen. lia. }
  assert (Hratio : truediv (len sub) (len df) = Ok (Qmake (len sub) (Z.to_pos (len df))))
    by (unfold truediv; rewrite Hdf; reflexivity).
  (* the means *)
  destruct (@mean_some (map GastoTotal sub)) as [gp Hgp];
    [intros E; apply map_eq_nil in E; contradiction|].
  destruct (@mean_some (map Edad sub)) as [ep Hep];
    [intros E; apply map_eq_nil in E; contradiction|].
  (* the modes *)
  assert (HG : Pandas.dropna (map Genero sub) <> []).
  { apply dropna_nonempty; [exact Hne|]. intros r Hr. specialize (Hc r Hr).
    unfold complete in Hc. apply andb_true_iff in Hc. apply Hc. }
  assert (HE : Pandas.dropna (map EstadoCivil sub) <> []).
  { apply dropna_nonempty; [exact Hne|]. intros r Hr. specialize (Hc r Hr).
    unfold complete in Hc. apply andb_true_iff in Hc. destruct Hc as [Hc _].
    apply andb_true_iff in Hc. apply Hc. }
  destruct (mode_nonempty _ HG) as [gd [rg Eg]].
  destruct (mode_nonempty _ HE) as [ed [re Ee]].
  (* the top bracket *)
  assert (Hidx : exists i, Pandas.idxmax (map snd (gasto_por_rango observed sub)) = Ok i).
  { destruct sub as [|r rest]; [congruence|].
    pose proof (Hc r (or_introl eq_refl)) as Cr. unfold complete in Cr.
    apply andb_true_iff in Cr. destruct Cr as [Cr _].
    apply andb_true_iff in Cr. destruct Cr as [_ Cr].
    destruct (RangoEdad r) as [c|] eqn:Ec; [|discriminate].
    destruct (@gasto_por_rango_has_mean observed (r :: rest) c Hsubcat) as [q Hq].
    - unfold occurs. simpl. left. exact Ec.
    - apply (@idxmax_defined _ q). apply in_map_iff. exists (c, Some q). auto. }
  destruct Hidx as [i Hi].
  (* the median *)
  destruct (@median_cases (map Edad sub)) as [a [b [_ [_ Hm]]]];
    [intros E; apply map_eq_nil in E; contradiction|].
  assert (Hpub : exists pub, py_int (Pandas.median (map Edad sub)) = Ok pub)
    by (destruct Hm as [-> | ->]; eexists; reflexivity).
  destruct Hpub as [pub Hpub].
  assert (Hemp : Pandas.empty sub = false) by (destruct sub; [congruence | reflexivity]).
  exists (Qmake (len sub) (Z.to_pos (len df))), gp, ep, gd, i, pub, ed.
  rewrite Eg, Ee.
  repeat (split; [first [assumption | reflexivity]|]).
  unfold run, bind, lift, emit, ret, st_stop.
  rewrite Hratio, Hgp, Hep, Hemp, Hi, Hpub. reflexivity.
Qed.

Lemma dashboard_completes_witness :
  exists tr, run (dashboard true (loaded gender_table) no_picks) = (tr, None).
Proof.
  assert (H : categorical (loaded gender_table)).
  { apply (@categorical_loaded (sample_fs gender_table) 2024 "marketing_campaign.csv" g0).
    reflexivity. }
  pose proof (@dashboard_completes true (loaded gender_table) no_picks H) as P.
  cbv zeta in P.
  destruct P as [ratio [gp [ep [gd [i [pub [ed [_ [_ [_ [_ [_ [_ [_ R]]]]]]]]]]]]]].
  - vm_compute. discriminate.
  - eexists. exact R.
Defined.

(* ------------------------------------------------------------------------- *)
(** * The dominant labels *)
(* ------------------------------------------------------------------------- *)

Lemma count_le_length (v : string) (l : list string) :
  (Pandas.count v l <= List.length l)%nat.
Proof. unfold Pandas.count. apply filter_length_le. Qed.

(** X12. On a selection that leaves at least one row, the dominant gender
    is one of the genders allowed by the filter and the most common marital
    status one of the allowed statuses; the count shown beside the dominant
    gender is at least 1 and at most the number of selected rows. *)
Theorem dominant_in_selection (df : list Row) (fe fed fg : list string) :
  filtrar df fe fed fg <> [] ->
  let sub := filtrar df fe fed fg in
  exists genero_dom estado,
    Pandas.at0 (Pandas.mode (map Genero sub)) = Ok genero_dom /\
    Pandas.at0 (Pandas.mode (map EstadoCivil sub)) = Ok estado /\
    In genero_dom fg /\
    In estado fe /\
    (1 <= Pandas.count genero_dom (Pandas.dropna (map Genero sub))
     <= List.length sub)%nat.
Proof.
  intros Hne sub.
  assert (Hc : forall r, In r sub -> complete r = true)
    by (intros r Hr; exact (filtrar_complete _ _ _ _ _ Hr)).
  assert (Hp : forall r, In r sub -> passes fe fed fg r = true).
  { intros r Hr. unfold sub in Hr. rewrite filtrar_filter in Hr.
    apply filter_In in Hr. apply Hr. }
  assert (HG : Pandas.dropna (map Genero sub) <> []).
  { apply dropna_nonempty; [exact Hne|]. intros r Hr. specialize (Hc r Hr).
    unfold complete in Hc. apply andb_true_iff in Hc. apply Hc. }
  assert (HE : Pandas.dropna (map EstadoCivil sub) <> []).
  { apply dropna_nonempty; [exact Hne|]. intros r Hr. specialize (Hc r Hr).
    unfold complete in Hc. apply andb_true_iff in Hc. destruct Hc as [Hc _].
    apply andb_true_iff in Hc. apply Hc. }
  destruct (mode_nonempty _ HG) as [gd [rg Eg]].
  destruct (mode_nonempty _ HE) as [ed [re Ee]].
  destruct (@mode_head _ gd rg Eg) as [Hgin _].
  destruct (@mode_head _ ed re Ee) as [Hein _].
  exists gd, ed. rewrite Eg, Ee.
  split; [reflexivity|]. split; [reflexivity|]. split; [|split; [|split]].
  - apply dropna_In, in_map_iff in Hgin. destruct Hgin as [r [E Hr]].
    specialize (Hp r Hr). unfold passes in Hp.
    apply andb_true_iff in Hp. destruct Hp as [_ Hp].
    rewrite E in Hp. apply mem_In. exact Hp.
  - apply dropna_In, in_map_iff in Hein. destruct Hein as [r [E Hr]].
    specialize (Hp r Hr). unfold passes in Hp.
    apply andb_true_iff in Hp. destruct Hp as [Hp _].
    apply andb_true_iff in Hp. destruct Hp as [Hp _].
    rewrite E in Hp. apply mem_In. exact Hp.
  - apply count_pos in Hgin. lia.
  - apply Nat.le_trans with (List.length (Pandas.dropna (map Genero sub)));
      [apply count_le_length|].
    rewrite dropna_length_present; [lia|].
    intros r Hr. specialize (Hc r Hr).
    unfold complete in Hc. apply andb_true_iff in Hc. apply Hc.
Qed.

Lemma dominant_in_selection_witness :
  exists genero_dom estado,
    Pandas.at0 (Pandas.mode (map Genero (filtrar (loaded gender_table) ["Single"] labels
                                                 ["Mujer"; "Hombre"]))) = Ok genero_dom /\
    Pandas.at0 (Pandas.mode (map EstadoCivil (filtrar (loaded gender_table) ["Single"] labels
                                                      ["Mujer"; "Hombre"]))) = Ok estado /\
    In genero_dom ["Mujer"; "Hombre"] /\ In estado ["Single"].
Proof.
  pose proof (@dominant_in_selection (loaded gender_table) ["Single"] labels
                                     ["Mujer"; "Hombre"]) as P.
  cbv zeta in P. destruct P as [gd [ed [H1 [H2 [H3 [H4 _]]]]]].
  - vm_compute. discriminate.
  - exists gd, ed. repeat split; assumption.
Defined.

